(** * Tool dispatch for the BCM assistant: a model of
      [dlm_BCMtool_call.py] and [dlm_tool_schema.py]

    The Python sources are embedded shallowly.  Python values that travel
    through [json.loads], [json.dumps] and the HTTP clients are JSON values;
    a function that may raise returns an [outcome]; code that appends to the
    global [messages] list or talks to the network runs in the monad [M],
    which threads a [state] and keeps the effects made before an exception
    was raised.  The collaborators that are not code of the repository (the
    [json] module, the HTTP clients, the completion service) are the fields
    of a [World]. *)

From Stdlib Require Import List String Ascii ZArith Bool Lia DecimalString.
Import ListNotations.
Open Scope string_scope.
Set Warnings "-register-all".

(** ** JSON values and Python dictionaries *)

(** [None] is [JNull], a [dict] is [JObj] in insertion order, a [list] is
    [JArr].  Numbers are the integers; no fractional number occurs in the
    sources. *)
Inductive json : Type :=
| JNull
| JBool (b : bool)
| JNum (n : Z)
| JStr (s : string)
| JArr (items : list json)
| JObj (members : list (string * json)).

(** [d.get(k)] *)
Fixpoint dict_get (k : string) (d : list (string * json)) : option json :=
  match d with
  | [] => None
  | (k', v) :: rest => if String.eqb k' k then Some v else dict_get k rest
  end.

(** [k in d] *)
Definition dict_in (k : string) (d : list (string * json)) : bool :=
  match dict_get k d with Some _ => true | None => false end.

(** [d[k] = v]: the value of an existing key is replaced in place, a new key
    goes to the end. *)
Fixpoint dict_set (k : string) (v : json) (d : list (string * json))
  : list (string * json) :=
  match d with
  | [] => [(k, v)]
  | (k', v') :: rest =>
      if String.eqb k' k then (k, v) :: rest else (k', v') :: dict_set k v rest
  end.

(** [k in v] for a value that is a dictionary; any other value has no key. *)
Definition json_has_key (k : string) (v : json) : bool :=
  match v with
  | JObj d => dict_in k d
  | _ => false
  end.

(** [type(v).__name__] *)
Definition py_type_name (v : json) : string :=
  match v with
  | JNull => "NoneType"
  | JBool _ => "bool"
  | JNum _ => "int"
  | JStr _ => "str"
  | JArr _ => "list"
  | JObj _ => "dict"
  end.

(** ** Exceptions and results *)

(** An instance of Python's [Exception]: the names of its classes below
    [Exception] (most specific first) and its text, [str(exc)].  Signals
    that are not instances of [Exception] (interrupts, cancellation) are
    not values of this type. *)
Record exn : Type := mk_exn { exn_mro : list string; exn_str : string }.

(** [isinstance(e, cls)] *)
Definition isinstance (e : exn) (cls : string) : bool :=
  String.eqb cls "Exception" || existsb (String.eqb cls) (exn_mro e).

Inductive outcome (A : Type) : Type :=
| Ret (a : A)
| Raise (e : exn).
Arguments Ret {A} a.
Arguments Raise {A} e.

Definition AttributeError (obj attr : string) : exn :=
  mk_exn ["AttributeError"]
         ("'" ++ obj ++ "' object has no attribute '" ++ attr ++ "'").

Definition TypeError (msg : string) : exn := mk_exn ["TypeError"] msg.

Definition IndexError (msg : string) : exn :=
  mk_exn ["IndexError"; "LookupError"] msg.

Definition NameError (name : string) : exn :=
  mk_exn ["NameError"] ("name '" ++ name ++ "' is not defined").

(** ** HTTP requests and responses *)

(** One call of [requests.post], [client.post] or [client.get], with the
    keyword arguments the sources pass.  [rq_json] is the [json=] argument
    ([JNull] when it is [None] or not passed); [rq_timeout] is in seconds,
    [None] when no timeout was given (the client then waits without bound);
    the float literal [30.0] is the integer 30. *)
Record request : Type := mk_request {
  rq_method : string;
  rq_url : string;
  rq_headers : list (string * string);
  rq_json : json;
  rq_verify : bool;
  rq_auth : option (string * string);
  rq_timeout : option Z
}.

(** A response object, by what its attributes and methods give:
    [resp.status_code], [resp.text], [resp.json()] and
    [resp.raise_for_status()] ([None]: it returns). *)
Record response : Type := mk_response {
  resp_status_code : Z;
  resp_text : string;
  resp_json : outcome json;
  resp_raise_for_status : option exn
}.

(** ** The conversation *)

Record function_call : Type := mk_function_call {
  fn_name : string;
  fn_arguments : string
}.

(** A tool call requested by the model: [tool_call.id] and
    [tool_call.function]. *)
Record tool_call : Type := mk_tool_call {
  tc_id : string;
  tc_function : function_call
}.

(** [response.choices[i].message]: [content] and [tool_calls], each of which
    may be [None]. *)
Record chat_message : Type := mk_chat_message {
  cm_content : option string;
  cm_tool_calls : option (list tool_call)
}.

Record chat_response : Type := mk_chat_response {
  choices : list chat_message
}.

(** The dictionaries appended to [messages], by their [role]. *)
Inductive message : Type :=
| SystemMsg (content : string)
| UserMsg (content : string)
| AssistantMsg (content : option string) (tool_calls : option (list tool_call))
| ToolMsg (tool_call_id : string) (content : string)
| FunctionMsg (name : string) (content : string).

(** A message that reports the result of a tool call: role [tool] or role
    [function]. *)
Definition is_tool_result (m : message) : bool :=
  match m with
  | ToolMsg _ _ | FunctionMsg _ _ => true
  | _ => false
  end.

(** ** The collaborators outside the repository *)

Record World : Type := mk_World {
  (** [json.dumps(v, indent=..., ensure_ascii=...)] *)
  json_dumps : option nat -> bool -> json -> string;
  (** [json.loads(s)] *)
  json_loads : string -> outcome json;
  (** [str(v)] of a value that is not a string, as an f-string formats it *)
  py_str : json -> string;
  (** the backend's answer to a request, or the transport's exception *)
  http_send : request -> outcome response;
  (** [chat_client.chat.completions.create(model=, messages=, tools=)] *)
  completions_create : string -> list message -> list json -> outcome chat_response
}.

(** ** State and the monad of effects *)

(** [messages] is the global list of the script; [network] lists the
    requests sent to a backend, oldest first; [model_calls] lists the
    conversations sent to the completion service, oldest first. *)
Record state : Type := mk_state {
  messages : list message;
  network : list request;
  model_calls : list (list message)
}.

Definition M (A : Type) : Type := state -> outcome A * state.

Definition ret {A} (a : A) : M A := fun s => (Ret a, s).

Definition raise {A} (e : exn) : M A := fun s => (Raise e, s).

Definition bind {A B} (m : M A) (f : A -> M B) : M B :=
  fun s =>
    match m s with
    | (Ret a, s') => f a s'
    | (Raise e, s') => (Raise e, s')
    end.

(** [try: body / except Exception as exc: handler]: the handler starts in
    the state the body had reached. *)
Definition try_except {A} (body : M A) (handler : exn -> M A) : M A :=
  fun s =>
    match body s with
    | (Ret a, s') => (Ret a, s')
    | (Raise e, s') => handler e s'
    end.

Definition lift {A} (o : outcome A) : M A := fun s => (o, s).

Declare Scope py_scope.
Delimit Scope py_scope with py.
Notation "x <- c1 ;; c2" := (bind c1 (fun x => c2))
  (at level 61, c1 at next level, right associativity) : py_scope.
Notation "c1 ;; c2" := (bind c1 (fun _ => c2))
  (at level 61, right associativity) : py_scope.
Open Scope py_scope.

(** [messages.append(m)] *)
Definition messages_append (m : message) : M unit :=
  fun s => (Ret tt, mk_state (messages s ++ [m]) (network s) (model_calls s)).

(** A request goes out: it is recorded, then the world answers. *)
Definition send (W : World) (rq : request) : M response :=
  fun s => (http_send W rq,
            mk_state (messages s) (network s ++ [rq]) (model_calls s)).

(** A call of the completion service with the current [messages]. *)
Definition create (W : World) (model : string) (tools : list json) : M chat_response :=
  fun s => (completions_create W model (messages s) tools,
            mk_state (messages s) (network s) (model_calls s ++ [messages s])).

(** ** Truth values of Python *)

(** [bool(s)] of an argument that is a string or [None]. *)
Definition truthy_str (o : option string) : bool :=
  match o with
  | None => false
  | Some s => negb (String.eqb s EmptyString)
  end.

(** [bool(l)] of an argument that is a list or [None]. *)
Definition truthy_list {A} (o : option (list A)) : bool :=
  match o with
  | None | Some [] => false
  | Some (_ :: _) => true
  end.

(** The string an argument holds where it is truthy. *)
Definition str_value (o : option string) : string :=
  match o with Some s => s | None => EmptyString end.

(** [x or default] for a string or [None]. *)
Definition str_or (o : option string) (default : string) : string :=
  if truthy_str o then str_value o else default.

(** An f-string field [{v}]. *)
Definition format_value (W : World) (v : json) : string :=
  match v with
  | JStr s => s
  | _ => py_str W v
  end.

(** ** The SLIM cockpit tools: [dlm_BCMtool_call.py], lines 22 to 188

    The [print] calls of the sources write to the console and do nothing
    else; they are left out, except where evaluating their argument can
    raise. *)

Section Tools.
Variable W : World.

(** The failure descriptors of the two cockpit tools: an object with the
    keys [error] and [step]. *)
Definition error_descriptor (error_msg step : string) : json :=
  JObj [("error", JStr error_msg); ("step", JStr step)].

(** Lines 93 to 100: the POST of the single client opened with
    [verify=False, timeout=30.0]. *)
Definition system_details_request (url : string) (payload : json) : request :=
  mk_request "POST" url [("Content-Type", "application/json")] payload
             false None (Some 30%Z).

(** Lines 62 to 121: the body of the [try] block. *)
Definition aicockpit_get_system_details_try
    (sid objid : option string) (sysType : string)
    (sections : option (list string)) (base_url : option string) : M string :=
  if negb (truthy_str sid) && negb (truthy_str objid) then
    let error_msg := "Either 'sid' or 'objid' parameter is required" in
    ret (json_dumps W (Some 2) true (error_descriptor error_msg "validation"))
  else
    let base_url :=
      match base_url with None => "https://dlm/slim/" | Some u => u end in
    let payload := [("sysType", JStr sysType)] in
    let payload :=
      if truthy_str sid then dict_set "sid" (JStr (str_value sid)) payload
      else payload in
    let payload :=
      if truthy_str objid then dict_set "objid" (JStr (str_value objid)) payload
      else payload in
    let payload :=
      match sections with
      | Some (x :: xs) => dict_set "sections" (JArr (map JStr (x :: xs))) payload
      | _ => payload
      end in
    let url := base_url ++ "/rest/external/aicockpit/systemdata" in
    resp <- send W (system_details_request url (JObj payload)) ;;
    lift (match resp_raise_for_status resp with
          | Some e => Raise e
          | None => Ret tt
          end) ;;
    result <- lift (resp_json resp) ;;
    ret (json_dumps W (Some 2) false result).

(** Lines 123 to 129: the [except Exception as exc] handler. *)
Definition aicockpit_get_system_details_except (exc : exn) : M string :=
  let error_msg := "Error in aicockpit_get_system_details: " ++ exn_str exc in
  ret (json_dumps W (Some 2) true (error_descriptor error_msg "fetch_system_data")).

(** [aicockpit_get_system_details(sid, objid, sysType, sections, base_url)],
    awaited. *)
Definition aicockpit_get_system_details
    (sid objid : option string) (sysType : string)
    (sections : option (list string)) (base_url : option string) : M string :=
  try_except
    (aicockpit_get_system_details_try sid objid sysType sections base_url)
    aicockpit_get_system_details_except.

(** Lines 166 to 172: the GET of the single client opened with
    [verify=False, timeout=30.0]. *)
Definition sections_request (url : string) : request :=
  mk_request "GET" url [("Content-Type", "application/json")] JNull
             false None (Some 30%Z).

(** Lines 156 to 180: the body of the [try] block.  Line 178 calls
    [result.get], which only a dictionary has. *)
Definition aicockpit_get_sections_try (base_url : option string) : M string :=
  let base_url :=
    match base_url with None => "https://dlm/slim/" | Some u => u end in
  let url := base_url ++ "/rest/external/aicockpit/sections" in
  resp <- send W (sections_request url) ;;
  lift (match resp_raise_for_status resp with
        | Some e => Raise e
        | None => Ret tt
        end) ;;
  result <- lift (resp_json resp) ;;
  lift (match result with
        | JObj _ => Ret tt
        | _ => Raise (AttributeError (py_type_name result) "get")
        end) ;;
  ret (json_dumps W (Some 2) false result).

(** Lines 182 to 188: the [except Exception as exc] handler. *)
Definition aicockpit_get_sections_except (exc : exn) : M string :=
  let error_msg := "Error in aicockpit_get_sections: " ++ exn_str exc in
  ret (json_dumps W (Some 2) true (error_descriptor error_msg "fetch_sections")).

(** [aicockpit_get_sections(base_url)], awaited. *)
Definition aicockpit_get_sections (base_url : option string) : M string :=
  try_except (aicockpit_get_sections_try base_url) aicockpit_get_sections_except.

(** ** The BCM search: lines 190 to 260 *)

Definition default_endpoint : string :=
  "https://ldciade.wdf.sap.corp:44315/sap/bc/abap/DLMD/BCM_READ_DATA".

(** Lines 228 to 246: the one [requests.post] call.  It passes no
    [timeout]. *)
Definition BCM_request (payload endpoint : json) : request :=
  let user := "DLM_BCM" in
  let password := "BCM_dlm@321" in
  let url := format_value W endpoint ++ "?sap-client=200&IS_GENERIC=X" in
  let headers :=
    [("Accept", "application/json, text/plain, */*");
     ("Content-Type", "application/json;charset=utf-8");
     ("X-Requested-With", "XMLHttpRequest")] in
  mk_request "POST" url headers payload false (Some (user, password)) None.

(** [search_BCM_Request(payload, method, endpoint)].  The payload goes into
    the request as it came.  The [try] of lines 254 to 259 only prints; an
    exception of [resp.json()] that is no [ValueError] leaves the
    function. *)
Definition search_BCM_Request (payload method endpoint : json) : M response :=
  resp <- send W (BCM_request payload endpoint) ;;
  match resp_json resp with
  | Ret _ => ret resp
  | Raise e => if isinstance e "ValueError" then ret resp else raise e
  end.

(** ** The dispatcher: lines 316 to 318 *)

Definition search_BCM_Request_params : list string :=
  ["payload"; "method"; "endpoint"].

(** The call of [search_BCM_Request] with [args] unpacked into keyword
    arguments: [args] must be a dictionary whose keys are parameters of the
    function; a parameter that is not given takes its default. *)
Definition bind_kwargs (args : json) : outcome (json * json * json) :=
  match args with
  | JObj d =>
      match find (fun kv => negb (existsb (String.eqb (fst kv))
                                          search_BCM_Request_params)) d with
      | Some (k, _) =>
          Raise (TypeError ("search_BCM_Request() got an unexpected keyword argument '"
                            ++ k ++ "'"))
      | None =>
          Ret (match dict_get "payload" d with Some v => v | None => JNull end,
               match dict_get "method" d with Some v => v | None => JStr "POST" end,
               match dict_get "endpoint" d with
               | Some v => v
               | None => JStr default_endpoint
               end)
      end
  | _ =>
      Raise (TypeError ("search_BCM_Request() argument after ** must be a mapping, not "
                        ++ py_type_name args))
  end.

(** [call_function(name, args)]: the value is [None] for every name but
    [get_BCM_Request]. *)
Definition call_function (name : string) (args : json) : M (option response) :=
  if String.eqb name "get_BCM_Request" then
    kw <- lift (bind_kwargs args) ;;
    let '(payload, method, endpoint) := kw in
    resp <- search_BCM_Request payload method endpoint ;;
    ret (Some resp)
  else ret None.

End Tools.

(** ** The tool schemas: [dlm_tool_schema.py] *)

(** The double quote character, for the one description that holds one. *)
Definition dquote : string := String (ascii_of_nat 34) EmptyString.

(** Lines 32 to 68. *)
Definition get_search_system_flexi_schema : json :=
  JObj [
    ("type", JStr "function");
    ("function", JObj [
        ("name", JStr "search_system_flexi");
        ("description", JStr "Query the SLIM Flexi Report API to search SAP system landscape data. Use a comma-separated field list (supports dot notation and aliases).");
        ("parameters", JObj [
            ("type", JStr "object");
            ("properties", JObj [
                ("query", JObj [
                    ("type", JStr "string");
                    ("enum", JArr [JStr "systemType"; JStr "extSystem"; JStr "sid"; JStr "landscape"]);
                    ("description", JStr "Comma-separated list of fields to retrieve, with optional filters. Filters are encoded as 'field|value'. Example: 'SID,systemType,status,customer.name,sid|ER1,status|Live'.  Rules: 'sid|...' is only valid for a specific 3-character SID. To query multiple systems, use only other filters like 'status|Parked'.for an extensibility system, please make sure that the flag extSystem is true.")]);
                ("otype", JObj [
                    ("type", JStr "string");
                    ("enum", JArr [JStr "json"; JStr "xml"; JStr "csv"]);
                    ("default", JStr "json");
                    ("description", JStr "Output format (default: json).")])]);
            ("required", JArr [JStr "query"; JStr "otype"]);
            ("additionalProperties", JBool false)]);
        ("strict", JBool true)])].

(** Lines 71 to 154. *)
Definition get_entity_details_schema : json :=
  JObj [
    ("type", JStr "function");
    ("function", JObj [
        ("name", JStr "get_entity_details");
        ("description", JStr "Fetch entity data from /rest/entityData/get/{entity}. Supports systems (model.system.ABAPSystem) and landscapes (model.Landscape). Returns one or many entries depending on filters.");
        ("parameters", JObj [
            ("type", JStr "object");
            ("properties", JObj [
                ("entity", JObj [
                    ("type", JStr "string");
                    ("enum", JArr [JStr "model.system.ABAPSystem"; JStr "model.Landscape"]);
                    ("description", JStr "Target entity to query.")]);
                ("filters", JObj [
                    ("type", JStr "array");
                    ("description", JStr "List of filters mapped to qFieldValue as 'field~value'. Multiple entries are ANDed by default.");
                    ("items", JObj [
                        ("type", JStr "object");
                        ("properties", JObj [
                            ("field", JObj [
                                ("type", JStr "string");
                                ("description", JStr "Entity attribute to match (e.g., 'SID', 'status', 'name', 'product.name', 'usage').")]);
                            ("value", JObj [
                                ("type", JStr "string");
                                ("description", JStr "Match value; '~' semantics as per backend (typically contains/equals). URL-encode if needed.")])]);
                        ("required", JArr [JStr "field"; JStr "value"]);
                        ("additionalProperties", JBool false)])]);
                ("logic", JObj [
                    ("type", JStr "string");
                    ("enum", JArr [JStr "AND"; JStr "OR"]);
                    ("description", JStr "How to combine filters. Backend natively ANDs repeated qFieldValue. OR may require encoding multiple values per field or backend support.")]);
                ("limit", JObj [
                    ("type", JStr "integer");
                    ("minimum", JNum 1%Z);
                    ("description", JStr "Optional client-side limit on returned items.")]);
                ("offset", JObj [
                    ("type", JStr "integer");
                    ("minimum", JNum 0%Z);
                    ("description", JStr "Optional client-side offset (if you implement pagination).")]);
                ("q_raw", JObj [
                    ("type", JStr "array");
                    ("description", JStr "Advanced: pass-through list of raw qFieldValue strings ('field~value'). If provided, these are appended as-is.");
                    ("items", JObj [
                        ("type", JStr "string")])])]);
            ("required", JArr [JStr "entity"]);
            ("additionalProperties", JBool false)]);
        ("strict", JBool true)])].

(** Lines 161 to 261. *)
Definition get_BCM_request_schema : json :=
  JObj [
    ("type", JStr "function");
    ("function", JObj [
        ("name", JStr "get_BCM_Request");
        ("description", JStr "Execute a POST call to the BCM (Business Client Management) service to fetch client request details. it's a POST call and the payload are craeted dynamically based on the user input");
        ("parameters", JObj [
            ("type", JStr "object");
            ("properties", JObj [
                ("endpoint", JObj [
                    ("type", JStr "string");
                    ("description", JStr "The API endpoint to call BCM service.");
                    ("default", JStr "https://ldciade.wdf.sap.corp:44315/sap/bc/abap/DLMD/BCM_READ_DATA?sap-client=200&IS_GENERIC=X")]);
                ("method", JObj [
                    ("type", JStr "string");
                    ("enum", JArr [JStr "POST"]);
                    ("default", JStr "POST");
                    ("description", JStr "The HTTP method to be used for the call.")]);
                ("payload", JObj [
                    ("type", JStr "object");
                    ("description", JStr "POST body payload for the BCM API call.");
                    ("properties", JObj [
                        ("HEADER_FILTER", JObj [
                            ("type", JStr "array");
                            ("description", JStr "This array will be formed based on user input
                                                this filiter criteria will be used for fetching data from ABAP SE11 table /DLMD/2BCPR_MSTR ");
                            ("items", JObj [
                                ("type", JStr "object");
                                ("properties", JObj [
                                    ("FIELD_NAME", JObj [
                                        ("type", JStr "string");
                                        ("description", JStr ("Technical name of the field, determined based on user prompt," ++ dquote ++ "
                                                            e.g., 'REQUEST_ID', 'VERSION', 'STATUS', 'REQUESTOR', 'TYPE', etc.
                                                            All the field name should be part of /DLMD/2BCPR_MSTR table fields"));
                                        ("enum", JArr [])]);
                                    ("VALUE_SELOP", JObj [
                                        ("type", JStr "array");
                                        ("items", JObj [
                                            ("type", JStr "object");
                                            ("properties", JObj [
                                                ("SIGN", JObj [
                                                    ("type", JStr "string");
                                                    ("description", JStr "I = Include if the value should be included or E = Exclude if the value should be excluded.");
                                                    ("valid enum", JArr [JStr "I"; JStr "E"])]);
                                                ("OPTION", JObj [
                                                    ("type", JStr "string");
                                                    ("description", JStr "The operators determine whether the specified values are used as a single value, a range or a search pattern when restricting the data selection. 
                                                        These operators work together with the fields lower limit (LOW), upper limit (HIGH) and the OPTION (I/E).
                                                        The following operators may be used:
                                                        EQ Equal
                                                        BT BeTween
                                                        LE Less Equal
                                                        GE Greater Equal
                                                        CP Contains Pattern");
                                                    ("valid enum", JArr [JStr "EQ"; JStr "GE"; JStr "LE"; JStr "BT"; JStr "NB"; JStr "CP"])]);
                                                ("LOW", JObj [
                                                    ("type", JStr "string");
                                                    ("description", JStr "The lower limit of the value range for the filter condition.")]);
                                                ("HIGH", JObj [
                                                    ("type", JStr "string");
                                                    ("description", JStr "The upper limit of the value range for the filter condition.")])]);
                                            ("required", JArr [JStr "SIGN"; JStr "OPTION"; JStr "LOW"])])])]);
                                ("required", JArr [JStr "FIELD_NAME"; JStr "VALUE_SELOP"])])])]);
                    ("HEADER_OUT_FEILD", JObj [
                        ("type", JStr "string");
                        ("description", JStr "Comma-separated list of fields to retrieve in the response.
                                                e.g., 'REQUEST_ID,VERSION,STATUS,REQUESTOR,TYPE'")])]);
                ("required", JArr [JStr "HEADER_FILTER, HEADER_OUT_FEILD"])])])])].

(** Line 157: both landscape schemas, as a list. *)
Definition get_all_schemas : list json :=
  [get_search_system_flexi_schema; get_entity_details_schema].

(** [schema["function"]["name"]] *)
Definition schema_name (schema : json) : option string :=
  match schema with
  | JObj d =>
      match dict_get "function" d with
      | Some (JObj f) =>
          match dict_get "name" f with
          | Some (JStr n) => Some n
          | _ => None
          end
      | _ => None
      end
  | _ => None
  end.

(** ** The script: [dlm_BCMtool_call.py], lines 263 to 365 *)

(** Lines 263 to 266: [tools] ends as the list of [get_all_schemas]. *)
Definition tools : list json := get_all_schemas.

(** The names advertised to the model. *)
Definition advertised_names : list string :=
  flat_map (fun s => match schema_name s with Some n => [n] | None => [] end) tools.

Definition user_prompt : string :=
  "show me all the BCM request for the system CCF, if it belongs to the landscape: 'SAP S/4HANA Public Cloud Development'?".

Definition system_prompt : string :=
  "
You are a helpful assistant that retrieves BCM Request information using the BCM POST API CAll.

When the query contains landscape keyword, first call get_aicockpit_get_system_details_schema() tool to get the system ID
and then use BCM API and use system ID as TA_SID from first query and get the BCM request details.

You have to prepare the correct dynamic POST payload based on the user input
You have access to a tool called `search_BCM_Request` that allows you to 
search BCM request based on the filters derived from user prompt.

Reply the output in nauturatl language.
Technical fields are explained below:
- REQUEST_ID: BCM Request ID
- TA_SID: Target System SID
- TA_CLNT: Target System Client
- STATUS: BCM Request Status
- TYPE: BCM Request Type
- CREATED_BY: User who created the BCM Request
- REQUESTOR: User who requested the BCM Request
- ID: Scope Item ID
- DESCRIPTION: Scope Item Description
- PROCESSOR: User responsible for processing the Scope Item
- DELIVERY_STATUS: Status of the Scope Item 

When you need BCM request information, call the tool with the right payload including filters and output fields. Always include the tool result in your final answer.
".

(** Lines 297 to 302. *)
Definition initial_messages : list message :=
  [SystemMsg system_prompt; UserMsg user_prompt].

(** The state in which line 305 runs: nothing sent yet. *)
Definition initial_state : state := mk_state initial_messages [] [].

Section Script.
Variable W : World.

(** [response.choices[0].message] *)
Definition first_message (r : chat_response) : M chat_message :=
  match choices r with
  | m :: _ => ret m
  | [] => raise (IndexError "list index out of range")
  end.

(** Lines 335 and 336: the body of the [for] loop parses the arguments of
    each tool call and does nothing else.  [vars] holds the loop's two
    variables, [tool_call] and [arguments], unbound before the first
    round. *)
Fixpoint parse_arguments_loop (tool_calls : list tool_call)
    (vars : option (tool_call * json)) : M (option (tool_call * json)) :=
  match tool_calls with
  | [] => ret vars
  | tool_call :: rest =>
      arguments <- lift (json_loads W (fn_arguments (tc_function tool_call))) ;;
      parse_arguments_loop rest (Some (tool_call, arguments))
  end.

(** Lines 339 to 351: the result goes into [messages] with role [tool], or
    with role [function] when [function_response.json()] raised.  Both
    branches read an attribute of [function_response], which [None] does
    not have. *)
Definition append_result (tool_call : tool_call)
    (function_response : option response) : M unit :=
  try_except
    (result_json <- match function_response with
                    | Some r => lift (resp_json r)
                    | None => raise (AttributeError "NoneType" "json")
                    end ;;
     messages_append (ToolMsg (tc_id tool_call) (json_dumps W None true result_json)))
    (fun _ =>
       content <- match function_response with
                  | Some r => ret (resp_text r)
                  | None => raise (AttributeError "NoneType" "text")
                  end ;;
       messages_append (FunctionMsg (fn_name (tc_function tool_call)) content)).

(** Lines 354 to 364: the second call of the model, and the text the run
    ends with, [final_message.content or "(no content)"]. *)
Definition final_answer : M (option string) :=
  second_response <- create W "gpt-4o" tools ;;
  final_message <- first_message second_response ;;
  ret (Some (str_or (cm_content final_message) "(no content)")).

(** Lines 328 to 364: the [else] branch.  The call of line 338 and the
    [try] of lines 339 to 351 stand after the loop, not in it. *)
Definition tool_round (tool_calls : option (list tool_call)) : M (option string) :=
  messages_append (AssistantMsg None tool_calls) ;;
  vars <- parse_arguments_loop
            (match tool_calls with Some l => l | None => [] end) None ;;
  match vars with
  | None => raise (NameError "tool_call")
  | Some (tool_call, arguments) =>
      function_response <-
        call_function W (fn_name (tc_function tool_call)) arguments ;;
      append_result tool_call function_response ;;
      final_answer
  end.

(** Lines 305 to 365.  The value is the text the run ends with: the
    assistant's content of the first response when no tool was called
    (line 326), the final answer otherwise. *)
Definition script : M (option string) :=
  response <- create W "gpt-4o" tools ;;
  message <- first_message response ;;
  let tool_calls := cm_tool_calls message in
  if negb (truthy_list tool_calls) then
    let assistant_content := cm_content message in
    ret assistant_content
  else tool_round tool_calls.

End Script.

(** The tool results in a conversation. *)
Definition tool_results (ms : list message) : list message :=
  filter is_tool_result ms.

(** ** A concrete world

    [json.dumps] as CPython's [json] module writes a value whose strings
    hold code points below 256, and worlds built from a backend and from the
    first answer of the model.  The examples below run in them. *)

Module PyJson.

Definition hex_digit (n : nat) : ascii :=
  nth n (list_ascii_of_string "0123456789abcdef") "0"%char.

(** The escape of a code point below 256 by its number. *)
Definition u_escape (n : nat) : string :=
  "\u00" ++ String (hex_digit (n / 16)) (String (hex_digit (n mod 16)) EmptyString).

Definition escape_char (ensure_ascii : bool) (c : ascii) : string :=
  let n := nat_of_ascii c in
  if Nat.eqb n 92 then "\\"
  else if Nat.eqb n 34 then "\" ++ dquote
  else if Nat.eqb n 8 then "\b"
  else if Nat.eqb n 12 then "\f"
  else if Nat.eqb n 10 then "\n"
  else if Nat.eqb n 13 then "\r"
  else if Nat.eqb n 9 then "\t"
  else if Nat.ltb n 32 then u_escape n
  else if ensure_ascii && Nat.ltb 126 n then u_escape n
  else String c EmptyString.

Fixpoint escape (ensure_ascii : bool) (s : string) : string :=
  match s with
  | EmptyString => EmptyString
  | String c rest => escape_char ensure_ascii c ++ escape ensure_ascii rest
  end.

Definition quoted (ensure_ascii : bool) (s : string) : string :=
  dquote ++ escape ensure_ascii s ++ dquote.

Fixpoint spaces (n : nat) : string :=
  match n with
  | O => EmptyString
  | S k => String " "%char (spaces k)
  end.

Definition newline : string := String (ascii_of_nat 10) EmptyString.

(** The line break before an item at nesting depth [level]; nothing without
    [indent]. *)
Definition newline_indent (indent : option nat) (level : nat) : string :=
  match indent with
  | None => EmptyString
  | Some k => newline ++ spaces (k * level)
  end.

Definition item_separator (indent : option nat) : string :=
  match indent with None => ", " | Some _ => "," end.

Definition join (sep : string) (l : list string) : string :=
  match l with
  | [] => EmptyString
  | x :: xs => fold_left (fun acc y => acc ++ sep ++ y) xs x
  end.

Definition string_of_Z (n : Z) : string := NilZero.string_of_int (Z.to_int n).

Fixpoint dumps_at (indent : option nat) (ensure_ascii : bool) (level : nat)
    (v : json) {struct v} : string :=
  let sep := item_separator indent ++ newline_indent indent (S level) in
  match v with
  | JNull => "null"
  | JBool true => "true"
  | JBool false => "false"
  | JNum n => string_of_Z n
  | JStr s => quoted ensure_ascii s
  | JArr [] => "[]"
  | JArr items =>
      "[" ++ newline_indent indent (S level)
          ++ join sep (map (dumps_at indent ensure_ascii (S level)) items)
          ++ newline_indent indent level ++ "]"
  | JObj [] => "{}"
  | JObj members =>
      "{" ++ newline_indent indent (S level)
          ++ join sep (map (fun kv => match kv with
                                      | (k, x) => quoted ensure_ascii k ++ ": "
                                                  ++ dumps_at indent ensure_ascii (S level) x
                                      end) members)
          ++ newline_indent indent level ++ "}"
  end.

Definition dumps (indent : option nat) (ensure_ascii : bool) (v : json) : string :=
  dumps_at indent ensure_ascii 0 v.

End PyJson.

Module Demo.

(** [json.loads] on the texts that [json.dumps] writes for the values of
    [known]; the examples parse no other text, and this stand-in refuses
    it. *)
Definition loads (known : list json) (s : string) : outcome json :=
  match find (fun v => String.eqb (PyJson.dumps None true v) s) known with
  | Some v => Ret v
  | None => Raise (mk_exn ["JSONDecodeError"; "ValueError"]
                          "Expecting value: line 1 column 1 (char 0)")
  end.

(** The answer of the completion service after the tool round. *)
Definition final_response : chat_response :=
  mk_chat_response [mk_chat_message (Some "Here is what the BCM service returned.") None].

(** A world: [first] answers the opening conversation of two messages,
    [final_response] any later one.  The examples format no value but
    strings, so [py_str] is never consulted. *)
Definition world (known : list json) (backend : request -> outcome response)
    (first : chat_response) : World :=
  mk_World PyJson.dumps (loads known) (fun _ => "<object>") backend
           (fun _ ms _ => match ms with
                          | [_; _] => Ret first
                          | _ => Ret final_response
                          end).

(** A backend that answers every request with status 200 and a JSON body. *)
Definition backend_result : json := JObj [("RESULT", JArr [])].

Definition backend_ok (rq : request) : outcome response :=
  Ret (mk_response 200 (PyJson.dumps None true backend_result) (Ret backend_result) None).

(** A backend that cannot be reached: the client raises
    [requests.exceptions.ConnectTimeout]. *)
Definition connect_timeout : exn :=
  mk_exn ["ConnectTimeout"; "ConnectionError"; "Timeout"; "RequestException"; "OSError"]
         "connection to ldciade.wdf.sap.corp timed out".

Definition backend_down (rq : request) : outcome response := Raise connect_timeout.

Definition selop (sign option low : string) : json :=
  JObj [("SIGN", JStr sign); ("OPTION", JStr option); ("LOW", JStr low)].

Definition criterion (fieldname : string) (selops : list json) : json :=
  JObj [("FIELDNAME", JStr fieldname); ("VALUE_SELOP", JArr selops)].

(** Requests of system CCF, with three output fields. *)
Definition payload_sid : json :=
  JObj [("HEADER_FILTER", JArr [criterion "TA_SID" [selop "I" "EQ" "CCF"]]);
        ("HEADER_OUT_FEILD", JStr "REQUEST_ID,TA_SID,TA_CLNT")].

(** The request of the docstring's example. *)
Definition payload_id : json :=
  JObj [("HEADER_FILTER", JArr [criterion "REQUEST_ID" [selop "I" "EQ" "2025000000060"]]);
        ("HEADER_OUT_FEILD", JStr "REQUEST_ID,TA_SID,TA_CLNT")].

(** Operator [EQ] with a [HIGH] bound. *)
Definition payload_eq_with_high : json :=
  JObj [("HEADER_FILTER",
         JArr [criterion "REQUEST_ID"
                 [JObj [("SIGN", JStr "I"); ("OPTION", JStr "EQ");
                        ("LOW", JStr "A"); ("HIGH", JStr "Z")]]])].

(** Operator [BT] without a [HIGH] bound. *)
Definition payload_bt_without_high : json :=
  JObj [("HEADER_FILTER", JArr [criterion "REQUEST_ID" [selop "I" "BT" "A"]])].

(** An output field named twice. *)
Definition payload_repeated_field : json :=
  JObj [("HEADER_FILTER", JArr [criterion "TA_SID" [selop "I" "EQ" "CCF"]]);
        ("HEADER_OUT_FEILD", JStr "REQUEST_ID,TA_SID,REQUEST_ID")].

Definition args_of (payload : json) : json := JObj [("payload", payload)].

Definition known : list json :=
  [JObj []; args_of payload_sid; args_of payload_id;
   args_of payload_eq_with_high; args_of payload_repeated_field].

Definition BCM_call (id : string) (payload : json) : tool_call :=
  mk_tool_call id (mk_function_call "get_BCM_Request" (PyJson.dumps None true (args_of payload))).

Definition asks (calls : list tool_call) : chat_response :=
  mk_chat_response [mk_chat_message None (Some calls)].

(** The model answers in text and asks for no tool. *)
Definition plain_answer : chat_response :=
  mk_chat_response [mk_chat_message (Some "CCF has no open BCM request.") None].

Definition W_plain : World := world known backend_ok plain_answer.

(** The model asks for two BCM searches in one response. *)
Definition W_two_calls : World :=
  world known backend_ok (asks [BCM_call "call_1" payload_sid; BCM_call "call_2" payload_id]).

(** The model asks for a tool that [call_function] does not know. *)
Definition unknown_call : tool_call :=
  mk_tool_call "call_1" (mk_function_call "get_unknown_thing" "{}").

Definition W_unknown : World := world known backend_ok (asks [unknown_call]).

(** The model asks for one BCM search and the backend cannot be reached. *)
Definition W_down : World :=
  world known backend_down (asks [BCM_call "call_1" payload_sid]).

(** The model asks for one BCM search and the backend answers. *)
Definition W_one_call : World :=
  world known backend_ok (asks [BCM_call "call_1" payload_sid]).

(** The model asks for a BCM search whose filter has operator [EQ] and a
    [HIGH] bound. *)
Definition W_eq_with_high : World :=
  world known backend_ok (asks [BCM_call "call_1" payload_eq_with_high]).

(** The model asks for a BCM search that names an output field twice. *)
Definition W_repeated_field : World :=
  world known backend_ok (asks [BCM_call "call_1" payload_repeated_field]).

End Demo.

(** ** The filter rules as the specification words them

    The sources hold no validation and no rewriting of a payload; the
    definitions of this part say what the specification asks of one, to
    compare it with what [search_BCM_Request] sends. *)

(** The selection options of a payload: every member of every
    [VALUE_SELOP] list of every criterion of every filter group. *)
Definition criterion_selops (c : json) : list json :=
  match c with
  | JObj d => match dict_get "VALUE_SELOP" d with
              | Some (JArr l) => l
              | _ => []
              end
  | _ => []
  end.

Definition group_selops (g : json) : list json :=
  match g with
  | JArr cs => flat_map criterion_selops cs
  | _ => []
  end.

Definition selection_options (payload : json) : list json :=
  match payload with
  | JObj d => flat_map (fun kv => group_selops (snd kv)) d
  | _ => []
  end.

(** The operator is [BT] (between) or [NB] (not between). *)
Definition spec_range_operator (selop : json) : bool :=
  match selop with
  | JObj d => match dict_get "OPTION" d with
              | Some (JStr op) => String.eqb op "BT" || String.eqb op "NB"
              | _ => false
              end
  | _ => false
  end.

(** The rule of the specification for one selection option: a range
    operator exactly when a [HIGH] bound is present. *)
Definition spec_selop_rule (selop : json) : bool :=
  Bool.eqb (spec_range_operator selop) (json_has_key "HIGH" selop).

(** A payload violates the rule when one of its selection options does. *)
Definition spec_violation (payload : json) : bool :=
  existsb (fun o => negb (spec_selop_rule o)) (selection_options payload).

(** [s.split(sep)] *)
Fixpoint split_on (sep : ascii) (s : string) : list string :=
  match s with
  | EmptyString => [EmptyString]
  | String c rest =>
      if Ascii.eqb c sep then EmptyString :: split_on sep rest
      else match split_on sep rest with
           | w :: ws => String c w :: ws
           | [] => [String c EmptyString]
           end
  end.

(** The output fields a payload asks for under [key] (such as
    [HEADER_OUT_FEILD]): the comma separated names, in order. *)
Definition out_fields (key : string) (payload : json) : list string :=
  match payload with
  | JObj d => match dict_get key d with
              | Some (JStr s) => split_on ","%char s
              | _ => []
              end
  | _ => []
  end.

(** The deduplication the specification describes: each name once, at the
    place of its first occurrence. *)
Fixpoint spec_dedup (seen names : list string) : list string :=
  match names with
  | [] => []
  | n :: rest =>
      if existsb (String.eqb n) seen then spec_dedup seen rest
      else n :: spec_dedup (n :: seen) rest
  end.

(** What the specification asks for a payload that violates the rule: an
    exception of class [ValidationError], raised before anything is sent. *)
Definition rejected_before_network (W : World) (payload method endpoint : json)
    (s : state) : Prop :=
  exists e,
    search_BCM_Request W payload method endpoint s = (Raise e, s)
    /\ isinstance e "ValidationError" = true.

(** [v[k1][k2]...] through nested dictionaries. *)
Fixpoint json_path (keys : list string) (v : json) : option json :=
  match keys with
  | [] => Some v
  | k :: rest =>
      match v with
      | JObj d => match dict_get k d with
                  | Some x => json_path rest x
                  | None => None
                  end
      | _ => None
      end
  end.

(** Where [get_BCM_request_schema] describes one selection option. *)
Definition selop_schema_path : list string :=
  ["function"; "parameters"; "properties"; "payload"; "properties";
   "HEADER_FILTER"; "items"; "properties"; "VALUE_SELOP"; "items"].

(** ** The requests of the cockpit tools, by their parts *)

(** Lines 77 to 86: the payload of a system-detail lookup. *)
Definition system_details_payload (sid objid : option string) (sysType : string)
    (sections : option (list string)) : list (string * json) :=
  let payload := [("sysType", JStr sysType)] in
  let payload :=
    if truthy_str sid then dict_set "sid" (JStr (str_value sid)) payload
    else payload in
  let payload :=
    if truthy_str objid then dict_set "objid" (JStr (str_value objid)) payload
    else payload in
  match sections with
  | Some (x :: xs) => dict_set "sections" (JArr (map JStr (x :: xs))) payload
  | _ => payload
  end.

(** Lines 72 to 74 and 88, and lines 157 to 161: the URL, with the fallback
    base. *)
Definition cockpit_url (base_url : option string) (path : string) : string :=
  match base_url with None => "https://dlm/slim/" | Some u => u end ++ path.

Definition system_details_url (base_url : option string) : string :=
  cockpit_url base_url "/rest/external/aicockpit/systemdata".

Definition sections_url (base_url : option string) : string :=
  cockpit_url base_url "/rest/external/aicockpit/sections".

(** The keyword names of a dictionary of arguments are all parameters of
    [search_BCM_Request]. *)
Definition kwargs_known (d : list (string * json)) : bool :=
  forallb (fun kv => existsb (String.eqb (fst kv)) search_BCM_Request_params) d.

(** [d.get(k, default)] *)
Definition dict_get_default (k : string) (default : json)
    (d : list (string * json)) : json :=
  match dict_get k d with Some v => v | None => default end.

(** ** More worlds *)

Module Scenario.

(** [resp.json()] on a body that is no JSON. *)
Definition json_error : exn :=
  mk_exn ["JSONDecodeError"; "ValueError"] "Expecting value: line 1 column 1 (char 0)".

(** A logon page: status 200, a body that is no JSON. *)
Definition html_response : response :=
  mk_response 200 "<html>Logon</html>" (Raise json_error) None.

(** Status 500: [raise_for_status] raises, and the body is no JSON. *)
Definition status_error : exn :=
  mk_exn ["HTTPStatusError"; "HTTPError"] "Server error '500 Internal Server Error'".

Definition error_response : response :=
  mk_response 500 "Internal Server Error" (Raise json_error) (Some status_error).

(** Status 200 and a JSON body that is a list. *)
Definition list_response : response :=
  mk_response 200 "[]" (Ret (JArr [])) None.

Definition sections_body : json :=
  JObj [("available_sections",
         JArr [JObj [("name", JStr "system_details");
                     ("description", JStr "Core system information")]]);
        ("total_sections", JNum 1%Z);
        ("description", JStr "AICockpit sections")].

Definition sections_response : response :=
  mk_response 200 (PyJson.dumps None true sections_body) (Ret sections_body) None.

(** A body that reports an error of the backend, with status 200. *)
Definition error_body : json := JObj [("error", JStr "System CCF not found")].

Definition error_body_response : response :=
  mk_response 200 (PyJson.dumps None true error_body) (Ret error_body) None.

Definition one_BCM_call : chat_response :=
  Demo.asks [Demo.BCM_call "call_1" Demo.payload_sid].

Definition W_html : World :=
  Demo.world Demo.known (fun _ => Ret html_response) one_BCM_call.

Definition W_error : World :=
  Demo.world Demo.known (fun _ => Ret error_response) one_BCM_call.

Definition W_list : World :=
  Demo.world Demo.known (fun _ => Ret list_response) one_BCM_call.

Definition W_sections : World :=
  Demo.world Demo.known (fun _ => Ret sections_response) one_BCM_call.

Definition W_error_body : World :=
  Demo.world Demo.known (fun _ => Ret error_body_response) one_BCM_call.

(** The first of two tool calls carries a text that is no JSON. *)
Definition malformed_call : tool_call :=
  mk_tool_call "call_1" (mk_function_call "get_BCM_Request" "{payload: ").

Definition W_malformed : World :=
  Demo.world Demo.known Demo.backend_ok
    (Demo.asks [malformed_call; Demo.BCM_call "call_2" Demo.payload_sid]).

(** The model sends arguments with a key that is no parameter. *)
Definition args_with_filters : json := JObj [("filters", JArr [])].

Definition W_bad_key : World :=
  Demo.world (args_with_filters :: Demo.known) Demo.backend_ok
    (Demo.asks [mk_tool_call "call_1"
                  (mk_function_call "get_BCM_Request"
                     (PyJson.dumps None true args_with_filters))]).

(** The completion service cannot be reached. *)
Definition api_error : exn :=
  mk_exn ["APIConnectionError"; "APIError"; "OpenAIError"] "Connection error.".

Definition W_model_down : World :=
  mk_World PyJson.dumps (Demo.loads Demo.known) (fun _ => "<object>") Demo.backend_ok
           (fun _ _ _ => Raise api_error).

(** The completion service answers the opening conversation and fails
    afterwards. *)
Definition W_second_down : World :=
  mk_World PyJson.dumps (Demo.loads Demo.known) (fun _ => "<object>") Demo.backend_ok
           (fun _ ms _ => match ms with
                          | [_; _] => Ret one_BCM_call
                          | _ => Raise api_error
                          end).

(** The final answer of the model has no content. *)
Definition W_silent : World :=
  mk_World PyJson.dumps (Demo.loads Demo.known) (fun _ => "<object>") Demo.backend_ok
           (fun _ ms _ => match ms with
                          | [_; _] => Ret one_BCM_call
                          | _ => Ret (mk_chat_response [mk_chat_message None None])
                          end).

End Scenario.

(** * Properties *)

(** ** The cockpit tools *)

Lemma error_descriptor_keys (error_msg step : string) :
  json_has_key "error" (error_descriptor error_msg step) = true
  /\ json_has_key "step" (error_descriptor error_msg step) = true.
Proof. split; reflexivity. Qed.

(** The validation of lines 63 to 69 answers without touching the state. *)
Lemma system_details_try_validation (W : World) sid objid sysType sections base_url s :
  truthy_str sid = false -> truthy_str objid = false ->
  aicockpit_get_system_details_try W sid objid sysType sections base_url s =
  (Ret (json_dumps W (Some 2) true
          (error_descriptor "Either 'sid' or 'objid' parameter is required" "validation")),
   s).
Proof.
  intros Hsid Hobjid. unfold aicockpit_get_system_details_try.
  rewrite Hsid, Hobjid. reflexivity.
Qed.

(** C9.  A system-detail lookup that is given neither [sid] nor [objid]
    (each of them [None] or the empty string) returns the text of the error
    descriptor whose [step] is [validation], and leaves the state as it was:
    no request is sent. *)
Theorem system_details_without_identifier (W : World) (sid objid : option string)
    (sysType : string) (sections : option (list string))
    (base_url : option string) (s : state) :
  truthy_str sid = false ->
  truthy_str objid = false ->
  aicockpit_get_system_details W sid objid sysType sections base_url s =
  (Ret (json_dumps W (Some 2) true
          (error_descriptor "Either 'sid' or 'objid' parameter is required" "validation")),
   s)
  /\ network (snd (aicockpit_get_system_details W sid objid sysType sections base_url s))
     = network s.
Proof.
  intros Hsid Hobjid.
  assert (Hrun : aicockpit_get_system_details W sid objid sysType sections base_url s =
                 (Ret (json_dumps W (Some 2) true
                         (error_descriptor "Either 'sid' or 'objid' parameter is required"
                                           "validation")), s)).
  { unfold aicockpit_get_system_details, try_except.
    now rewrite system_details_try_validation. }
  split; [exact Hrun | now rewrite Hrun].
Qed.

Lemma system_details_without_identifier_witness :
  aicockpit_get_system_details Demo.W_one_call None None "ABAPSystem" None None initial_state =
  (Ret (json_dumps Demo.W_one_call (Some 2) true
          (error_descriptor "Either 'sid' or 'objid' parameter is required" "validation")),
   initial_state)
  /\ network (snd (aicockpit_get_system_details Demo.W_one_call None None "ABAPSystem"
                     None None initial_state))
     = network initial_state.
Proof.
  apply (system_details_without_identifier Demo.W_one_call None None "ABAPSystem"
           None None initial_state); reflexivity.
Defined.

(** With an identifier, the [try] block is the request and what follows
    it. *)
Lemma system_details_try_sends (W : World) sid objid sysType sections base_url :
  truthy_str sid = true \/ truthy_str objid = true ->
  aicockpit_get_system_details_try W sid objid sysType sections base_url =
  (resp <- send W (system_details_request (system_details_url base_url)
                     (JObj (system_details_payload sid objid sysType sections))) ;;
   lift (match resp_raise_for_status resp with
         | Some e => Raise e
         | None => Ret tt
         end) ;;
   result <- lift (resp_json resp) ;;
   ret (json_dumps W (Some 2) false result)).
Proof.
  intros Hid. unfold aicockpit_get_system_details_try.
  replace (negb (truthy_str sid) && negb (truthy_str objid)) with false
    by (destruct Hid as [-> | ->]; [reflexivity | now rewrite andb_false_r]).
  destruct sections as [[| x xs] |]; reflexivity.
Qed.

(** C10, as stated, fails.  A backend that answers a lookup with status
    200 and a body that reports an error (the case logged at lines 109 and
    110) gets its body back as the result: an object with the key [error]
    and without the key [step]. *)
Lemma backend_error_body_comes_back_without_step :
  fst (aicockpit_get_system_details Scenario.W_error_body (Some "CCF") None "ABAPSystem"
         None None initial_state)
  = Ret (json_dumps Scenario.W_error_body (Some 2) false Scenario.error_body)
  /\ http_send Scenario.W_error_body
       (system_details_request (system_details_url None)
          (JObj (system_details_payload (Some "CCF") None "ABAPSystem" None)))
     = Ret Scenario.error_body_response
  /\ resp_status_code Scenario.error_body_response = 200%Z
  /\ resp_json Scenario.error_body_response = Ret Scenario.error_body
  /\ json_has_key "error" Scenario.error_body = true
  /\ json_has_key "step" Scenario.error_body = false.
Proof. repeat split. Qed.

(** C10, as the code has it.  Whatever the arguments, the world and the
    state, each cockpit tool returns a text written by [json.dumps];
    every exception raised in its [try] block is caught.

    [aicockpit_get_system_details] returns one of three texts: the
    descriptor with step [validation] when neither identifier is truthy,
    and then nothing is sent; the descriptor with step [fetch_system_data]
    and the text of the exception after the prefix
    [Error in aicockpit_get_system_details: ] when the transport, the
    status check or the parsing of the body raised; the body of the
    backend, as received, in every other case.

    [aicockpit_get_sections] returns the descriptor with step
    [fetch_sections] and the text of the exception after the prefix
    [Error in aicockpit_get_sections: ] when the transport, the status
    check, the parsing of the body or [result.get] on a body that is no
    object raised; the body of the backend, as received, in every other
    case.

    A descriptor is an object with the keys [error] and [step]. *)
Theorem cockpit_tools_return_json (W : World) (sid objid : option string)
    (sysType : string) (sections : option (list string))
    (base_url : option string) (s : state) :
  let rq := system_details_request (system_details_url base_url)
              (JObj (system_details_payload sid objid sysType sections)) in
  let rq' := sections_request (sections_url base_url) in
  ((truthy_str sid = false /\ truthy_str objid = false
    /\ aicockpit_get_system_details W sid objid sysType sections base_url s =
       (Ret (json_dumps W (Some 2) true
               (error_descriptor "Either 'sid' or 'objid' parameter is required"
                                 "validation")), s))
   \/ ((truthy_str sid = true \/ truthy_str objid = true)
       /\ exists e,
            (http_send W rq = Raise e
             \/ exists resp,
                  http_send W rq = Ret resp
                  /\ (resp_raise_for_status resp = Some e
                      \/ (resp_raise_for_status resp = None
                          /\ resp_json resp = Raise e)))
            /\ aicockpit_get_system_details W sid objid sysType sections base_url s =
               (Ret (json_dumps W (Some 2) true
                       (error_descriptor
                          ("Error in aicockpit_get_system_details: " ++ exn_str e)
                          "fetch_system_data")),
                mk_state (messages s) (network s ++ [rq]) (model_calls s)))
   \/ ((truthy_str sid = true \/ truthy_str objid = true)
       /\ exists resp result,
            http_send W rq = Ret resp
            /\ resp_raise_for_status resp = None
            /\ resp_json resp = Ret result
            /\ aicockpit_get_system_details W sid objid sysType sections base_url s =
               (Ret (json_dumps W (Some 2) false result),
                mk_state (messages s) (network s ++ [rq]) (model_calls s))))
  /\
  ((exists e,
       (http_send W rq' = Raise e
        \/ exists resp,
             http_send W rq' = Ret resp
             /\ (resp_raise_for_status resp = Some e
                 \/ (resp_raise_for_status resp = None
                     /\ (resp_json resp = Raise e
                         \/ exists result,
                              resp_json resp = Ret result
                              /\ (forall d, result <> JObj d)
                              /\ e = AttributeError (py_type_name result) "get"))))
       /\ aicockpit_get_sections W base_url s =
          (Ret (json_dumps W (Some 2) true
                  (error_descriptor ("Error in aicockpit_get_sections: " ++ exn_str e)
                                    "fetch_sections")),
           mk_state (messages s) (network s ++ [rq']) (model_calls s)))
   \/ (exists resp d,
          http_send W rq' = Ret resp
          /\ resp_raise_for_status resp = None
          /\ resp_json resp = Ret (JObj d)
          /\ aicockpit_get_sections W base_url s =
             (Ret (json_dumps W (Some 2) false (JObj d)),
              mk_state (messages s) (network s ++ [rq']) (model_calls s))))
  /\
  (forall error_msg step,
      json_has_key "error" (error_descriptor error_msg step) = true
      /\ json_has_key "step" (error_descriptor error_msg step) = true).
Proof.
  intros rq rq'. split; [| split; [| intros; split; reflexivity]].
  - assert (Hsent :
              truthy_str sid = true \/ truthy_str objid = true ->
              (exists e,
                  (http_send W rq = Raise e
                   \/ exists resp,
                        http_send W rq = Ret resp
                        /\ (resp_raise_for_status resp = Some e
                            \/ (resp_raise_for_status resp = None
                                /\ resp_json resp = Raise e)))
                  /\ aicockpit_get_system_details W sid objid sysType sections base_url s =
                     (Ret (json_dumps W (Some 2) true
                             (error_descriptor
                                ("Error in aicockpit_get_system_details: " ++ exn_str e)
                                "fetch_system_data")),
                      mk_state (messages s) (network s ++ [rq]) (model_calls s)))
              \/ (exists resp result,
                     http_send W rq = Ret resp
                     /\ resp_raise_for_status resp = None
                     /\ resp_json resp = Ret result
                     /\ aicockpit_get_system_details W sid objid sysType sections base_url s =
                        (Ret (json_dumps W (Some 2) false result),
                         mk_state (messages s) (network s ++ [rq]) (model_calls s)))).
    { intros Hid.
      unfold aicockpit_get_system_details, try_except.
      rewrite system_details_try_sends by exact Hid.
      unfold bind, send, lift, ret. fold rq.
      destruct (http_send W rq) as [resp | e] eqn:Hsend;
        [destruct (resp_raise_for_status resp) as [e |] eqn:Hstatus;
         [| destruct (resp_json resp) as [result | e] eqn:Hjson] |].
      - left. exists e. split; [| reflexivity].
        right. exists resp. split; [reflexivity | left; exact Hstatus].
      - right. exists resp, result.
        split; [reflexivity | split; [exact Hstatus | split; [exact Hjson | reflexivity]]].
      - left. exists e. split; [| reflexivity].
        right. exists resp. split; [reflexivity | right; split; assumption].
      - left. exists e. split; [left; reflexivity | reflexivity]. }
    destruct (truthy_str sid) eqn:Hsid;
      [| destruct (truthy_str objid) eqn:Hobjid].
    + destruct (Hsent (or_introl eq_refl)) as [H | H];
        [right; left | right; right]; (split; [left; reflexivity | exact H]).
    + destruct (Hsent (or_intror eq_refl)) as [H | H];
        [right; left | right; right]; (split; [right; reflexivity | exact H]).
    + left. split; [reflexivity | split; [reflexivity |]].
      unfold aicockpit_get_system_details, try_except.
      now rewrite system_details_try_validation.
  - unfold aicockpit_get_sections, try_except, aicockpit_get_sections_try.
    unfold bind, send, lift, ret.
    change (match base_url with
            | Some u => u
            | None => "https://dlm/slim/"
            end ++ "/rest/external/aicockpit/sections") with (sections_url base_url).
    fold rq'.
    destruct (http_send W rq') as [resp | e] eqn:Hsend;
      [destruct (resp_raise_for_status resp) as [e |] eqn:Hstatus;
       [| destruct (resp_json resp) as [result | e] eqn:Hjson] |].
    + left. exists e. split; [| reflexivity].
      right. exists resp. split; [reflexivity | left; exact Hstatus].
    + destruct result as [| b | n | str | items | d];
        try (left; eexists; split; [| reflexivity];
             right; exists resp; split; [reflexivity |]; right; split; [exact Hstatus |];
             right; eexists; split; [exact Hjson |];
             split; [intros d Hd; discriminate Hd | reflexivity]).
      right. exists resp, d.
      split; [reflexivity | split; [exact Hstatus | split; [exact Hjson | reflexivity]]].
    + left. exists e. split; [| reflexivity].
      right. exists resp. split; [reflexivity |]. right. split; [exact Hstatus |].
      left. exact Hjson.
    + left. exists e. split; [left; reflexivity | reflexivity].
Qed.

(** ** Requests: how many, and with what timeout *)

(** A guarded lookup sends nothing or one request, built by
    [system_details_request]. *)
Lemma system_details_network (W : World) sid objid sysType sections base_url s :
  let s' := snd (aicockpit_get_system_details W sid objid sysType sections base_url s) in
  network s' = network s
  \/ exists url payload, network s' = (network s ++ [system_details_request url payload])%list.
Proof.
  unfold aicockpit_get_system_details, try_except, aicockpit_get_system_details_try.
  destruct (negb (truthy_str sid) && negb (truthy_str objid)); [left; reflexivity |].
  right. unfold bind, send, lift, ret. do 2 eexists.
  destruct (http_send W _) as [resp | e]; [| reflexivity].
  destruct (resp_raise_for_status resp); [reflexivity |].
  destruct (resp_json resp); reflexivity.
Qed.

Lemma sections_network (W : World) base_url s :
  exists url,
    network (snd (aicockpit_get_sections W base_url s))
    = (network s ++ [sections_request url])%list.
Proof.
  unfold aicockpit_get_sections, try_except, aicockpit_get_sections_try.
  unfold bind, send, lift, ret. eexists.
  destruct (http_send W _) as [resp | e]; [| reflexivity].
  destruct (resp_raise_for_status resp); [reflexivity |].
  destruct (resp_json resp) as [result | e]; [| reflexivity].
  destruct result; reflexivity.
Qed.

(** [search_BCM_Request] changes the state by one request and nothing
    else. *)
Lemma search_BCM_Request_state (W : World) payload method endpoint s :
  snd (search_BCM_Request W payload method endpoint s)
  = mk_state (messages s) ((network s ++ [BCM_request W payload endpoint])%list) (model_calls s).
Proof.
  unfold search_BCM_Request, bind, send, ret, raise.
  destruct (http_send W _) as [resp | e]; [| reflexivity].
  destruct (resp_json resp) as [v | e]; [reflexivity |].
  destruct (isinstance e "ValueError"); reflexivity.
Qed.

(** C8.  No call is repeated: a lookup sends at most one request, the
    section query and the BCM search exactly one.  The requests of the two
    cockpit tools carry the timeout 30; the request of [search_BCM_Request]
    carries none. *)
Theorem backend_requests_and_timeouts (W : World) :
  (forall sid objid sysType sections base_url s,
      let s' := snd (aicockpit_get_system_details W sid objid sysType sections base_url s) in
      network s' = network s
      \/ exists rq, network s' = (network s ++ [rq])%list /\ rq_timeout rq = Some 30%Z)
  /\ (forall base_url s,
         exists rq,
           network (snd (aicockpit_get_sections W base_url s)) = (network s ++ [rq])%list
           /\ rq_timeout rq = Some 30%Z)
  /\ (forall payload method endpoint s,
         exists rq,
           network (snd (search_BCM_Request W payload method endpoint s))
           = (network s ++ [rq])%list
           /\ rq_timeout rq = None).
Proof.
  split; [| split].
  - intros sid objid sysType sections base_url s.
    destruct (system_details_network W sid objid sysType sections base_url s)
      as [H | (url & payload & H)]; [left; exact H |].
    right. exists (system_details_request url payload). split; [exact H | reflexivity].
  - intros base_url s. destruct (sections_network W base_url s) as (url & H).
    exists (sections_request url). split; [exact H | reflexivity].
  - intros payload method endpoint s. exists (BCM_request W payload endpoint).
    rewrite search_BCM_Request_state. split; reflexivity.
Qed.

(** ** The BCM search forwards what it is given *)

(** C2, as the code has it.  [search_BCM_Request] does not check the rule
    on operators and [HIGH] bounds: for every payload, whatever the
    operator of a selection option and whether or not it has a [HIGH]
    bound, the request sent to the backend carries the payload unchanged,
    each selection option as it came, so a payload that violates the rule
    goes out violating it. *)
Theorem search_BCM_Request_forwards_payload (W : World)
    (payload method endpoint : json) (s : state) :
  exists rq,
    network (snd (search_BCM_Request W payload method endpoint s))
    = (network s ++ [rq])%list
    /\ rq_json rq = payload
    /\ selection_options (rq_json rq) = selection_options payload
    /\ spec_violation (rq_json rq) = spec_violation payload.
Proof.
  exists (BCM_request W payload endpoint).
  rewrite search_BCM_Request_state. repeat split.
Qed.

(** The schema of a selection option asks for [SIGN], [OPTION] and [LOW];
    [HIGH] is a plain optional string under every operator. *)
Lemma selop_schema_leaves_high_optional :
  json_path (selop_schema_path ++ ["required"]) get_BCM_request_schema
  = Some (JArr [JStr "SIGN"; JStr "OPTION"; JStr "LOW"])
  /\ json_path (selop_schema_path ++ ["properties"; "HIGH"; "type"]) get_BCM_request_schema
     = Some (JStr "string").
Proof. split; reflexivity. Qed.

(** C2, as stated, fails.  Operator [EQ] with a [HIGH] bound, and operator
    [BT] without one, both violate the rule of the specification; neither
    is rejected, and each is sent to the backend as it came.  A run in
    which the model asks for the first of them ends normally, after the
    payload went out. *)
Lemma range_rule_is_not_enforced :
  spec_violation Demo.payload_eq_with_high = true
  /\ ~ rejected_before_network Demo.W_one_call Demo.payload_eq_with_high
         (JStr "POST") (JStr default_endpoint) initial_state
  /\ map rq_json (network (snd (search_BCM_Request Demo.W_one_call
                                  Demo.payload_eq_with_high (JStr "POST")
                                  (JStr default_endpoint) initial_state)))
     = [Demo.payload_eq_with_high]
  /\ spec_violation Demo.payload_bt_without_high = true
  /\ ~ rejected_before_network Demo.W_one_call Demo.payload_bt_without_high
         (JStr "POST") (JStr default_endpoint) initial_state
  /\ map rq_json (network (snd (search_BCM_Request Demo.W_one_call
                                  Demo.payload_bt_without_high (JStr "POST")
                                  (JStr default_endpoint) initial_state)))
     = [Demo.payload_bt_without_high]
  /\ fst (script Demo.W_eq_with_high initial_state)
     = Ret (Some "Here is what the BCM service returned.")
  /\ map rq_json (network (snd (script Demo.W_eq_with_high initial_state)))
     = [Demo.payload_eq_with_high].
Proof.
  repeat split; try (vm_compute; reflexivity);
    intros (e & Hrun & _); apply (f_equal fst) in Hrun; discriminate Hrun.
Qed.

(** C7, as the code has it.  [search_BCM_Request] does not rewrite the
    output fields: under every key, the request it sends lists the names
    the payload lists, in the same order and as often. *)
Theorem search_BCM_Request_keeps_out_fields (W : World)
    (payload method endpoint : json) (s : state) (key : string) :
  exists rq,
    network (snd (search_BCM_Request W payload method endpoint s)) = (network s ++ [rq])%list
    /\ out_fields key (rq_json rq) = out_fields key payload.
Proof.
  exists (BCM_request W payload endpoint).
  rewrite search_BCM_Request_state. split; reflexivity.
Qed.

(** C7, as stated, fails.  A payload that names [REQUEST_ID] twice among
    its output fields goes out with both occurrences, from
    [search_BCM_Request] and from a run in which the model asks for it: the
    list sent has a duplicate and is not the deduplicated list. *)
Lemma repeated_out_field_is_sent :
  map (fun rq => out_fields "HEADER_OUT_FEILD" (rq_json rq))
      (network (snd (search_BCM_Request Demo.W_one_call Demo.payload_repeated_field
                       (JStr "POST") (JStr default_endpoint) initial_state)))
  = [["REQUEST_ID"; "TA_SID"; "REQUEST_ID"]]
  /\ map (fun rq => out_fields "HEADER_OUT_FEILD" (rq_json rq))
         (network (snd (script Demo.W_repeated_field initial_state)))
     = [["REQUEST_ID"; "TA_SID"; "REQUEST_ID"]]
  /\ ~ NoDup ["REQUEST_ID"; "TA_SID"; "REQUEST_ID"]
  /\ spec_dedup [] (out_fields "HEADER_OUT_FEILD" Demo.payload_repeated_field)
     = ["REQUEST_ID"; "TA_SID"].
Proof.
  split; [reflexivity | split; [vm_compute; reflexivity | split; [| reflexivity]]].
  intros Hnd. inversion Hnd as [| x l Hnotin _]; subst.
  apply Hnotin. right. left. reflexivity.
Qed.

(** ** The dispatcher *)

Lemma call_function_other_name (W : World) (name : string) (args : json) (s : state) :
  String.eqb name "get_BCM_Request" = false ->
  call_function W name args s = (Ret None, s).
Proof. intros H. unfold call_function. rewrite H. reflexivity. Qed.

Lemma call_function_state (W : World) (name : string) (args : json) (s : state) :
  messages (snd (call_function W name args s)) = messages s
  /\ model_calls (snd (call_function W name args s)) = model_calls s.
Proof.
  unfold call_function.
  destruct (String.eqb name "get_BCM_Request"); [| split; reflexivity].
  unfold bind, lift.
  destruct (bind_kwargs args) as [[[payload method] endpoint] | e]; [| split; reflexivity].
  pose proof (search_BCM_Request_state W payload method endpoint s) as Hs.
  destruct (search_BCM_Request W payload method endpoint s) as [[resp | e] s'];
    simpl in *; subst s'; split; reflexivity.
Qed.

(** C3.  The schemas advertised to the model are those of
    [search_system_flexi] and [get_entity_details]; for each of these names
    [call_function] returns [None] and does nothing.  A value other than
    [None] comes back only for the name [get_BCM_Request] (and does come
    back for it in some world), the name of the schema
    [get_BCM_request_schema], which is not advertised. *)
Theorem advertised_tools_are_not_dispatched :
  advertised_names = ["search_system_flexi"; "get_entity_details"]
  /\ tools = get_all_schemas
  /\ (forall W name args s,
         In name advertised_names -> call_function W name args s = (Ret None, s))
  /\ (forall W name args s resp s',
         call_function W name args s = (Ret (Some resp), s') -> name = "get_BCM_Request")
  /\ (exists W args s resp s',
         call_function W "get_BCM_Request" args s = (Ret (Some resp), s'))
  /\ schema_name get_BCM_request_schema = Some "get_BCM_Request"
  /\ ~ In "get_BCM_Request" advertised_names.
Proof.
  split; [reflexivity | split; [reflexivity | split; [| split; [| split; [| split]]]]].
  - intros W name args s Hin. apply call_function_other_name.
    destruct Hin as [<- | [<- | []]]; reflexivity.
  - intros W name args s resp s' Hcall.
    destruct (String.eqb name "get_BCM_Request") eqn:Hname.
    + now apply String.eqb_eq.
    + rewrite call_function_other_name in Hcall by assumption. discriminate.
  - exists Demo.W_one_call, (Demo.args_of Demo.payload_sid), initial_state.
    do 2 eexists. reflexivity.
  - reflexivity.
  - intros [H | [H | []]]; discriminate.
Qed.

Lemma advertised_tools_are_not_dispatched_witness :
  call_function Demo.W_one_call "search_system_flexi"
    (JObj [("query", JStr "sid"); ("otype", JStr "json")]) initial_state
  = (Ret None, initial_state)
  /\ call_function Demo.W_one_call "get_entity_details"
       (JObj [("entity", JStr "model.Landscape")]) initial_state
     = (Ret None, initial_state).
Proof.
  destruct advertised_tools_are_not_dispatched as (_ & _ & Hnone & _).
  split; apply Hnone; simpl; auto.
Defined.

(** ** The script *)

Lemma parse_arguments_loop_state (W : World) (tcs : list tool_call) vars s :
  snd (parse_arguments_loop W tcs vars s) = s.
Proof.
  revert vars. induction tcs as [| tc rest IH]; intros vars; [reflexivity |].
  simpl. unfold bind, lift.
  destruct (json_loads W (fn_arguments (tc_function tc))); [apply IH | reflexivity].
Qed.

(** After a loop in which every text parsed, the variables hold the last
    tool call and its arguments. *)
Lemma parse_arguments_loop_last (W : World) (tcs : list tool_call)
    (tc : tool_call) (args : json) vars s :
  Forall (fun c => exists a, json_loads W (fn_arguments (tc_function c)) = Ret a) tcs ->
  json_loads W (fn_arguments (tc_function tc)) = Ret args ->
  parse_arguments_loop W (tcs ++ [tc]) vars s = (Ret (Some (tc, args)), s).
Proof.
  intros Hall Hlast. revert vars.
  induction Hall as [| c rest [a Ha] _ IH]; intros vars; simpl; unfold bind, lift.
  - rewrite Hlast. reflexivity.
  - rewrite Ha. apply IH.
Qed.

(** [append_result] adds one message, a tool result, or none. *)
Lemma append_result_state (W : World) (tc : tool_call) (fr : option response) s :
  let s' := snd (append_result W tc fr s) in
  network s' = network s /\ model_calls s' = model_calls s
  /\ (messages s' = messages s
      \/ exists m, messages s' = (messages s ++ [m])%list /\ is_tool_result m = true).
Proof.
  unfold append_result, try_except, bind, lift, raise, ret, messages_append.
  destruct fr as [r |]; simpl.
  - destruct (resp_json r); simpl; repeat split; right; eexists; split; reflexivity.
  - repeat split. left. reflexivity.
Qed.

Lemma snd_bind {A B} (m : M A) (f : A -> M B) (s : state) :
  snd (bind m f s) =
  match fst (m s) with
  | Ret a => snd (f a (snd (m s)))
  | Raise _ => snd (m s)
  end.
Proof. unfold bind. destruct (m s) as [[a | e] s']; reflexivity. Qed.

Lemma first_message_state (r : chat_response) (s : state) :
  snd (first_message r s) = s.
Proof. unfold first_message. destruct (choices r); reflexivity. Qed.

(** The second call of the model sends the conversation as it stands and
    leaves it as it is. *)
Lemma final_answer_state (W : World) (s : state) :
  snd (final_answer W s)
  = mk_state (messages s) (network s) (model_calls s ++ [messages s]).
Proof.
  unfold final_answer. rewrite snd_bind. unfold create at 1 2. simpl fst. simpl snd.
  destruct (completions_create W "gpt-4o" (messages s) tools) as [r | e]; [| reflexivity].
  rewrite snd_bind, first_message_state.
  destruct (fst (first_message r _)); reflexivity.
Qed.

(** The conversation after the tool round, however it ends: the
    assistant's message, then one tool result or none. *)
Lemma tool_round_messages (W : World) (tool_calls : option (list tool_call)) (s : state) :
  let s' := snd (tool_round W tool_calls s) in
  let a := AssistantMsg None tool_calls in
  messages s' = (messages s ++ [a])%list
  \/ exists m, messages s' = (messages s ++ [a; m])%list /\ is_tool_result m = true.
Proof.
  cbv zeta. unfold tool_round.
  rewrite snd_bind. unfold messages_append at 1 2. simpl fst. simpl snd.
  rewrite snd_bind, parse_arguments_loop_state.
  destruct (fst (parse_arguments_loop W _ None _)) as [[[tc args] |] | e];
    try (left; reflexivity).
  rewrite snd_bind.
  pose proof (call_function_state W (fn_name (tc_function tc)) args
                (mk_state (messages s ++ [AssistantMsg None tool_calls])
                          (network s) (model_calls s))) as [Hm _].
  destruct (fst (call_function W _ _ _)) as [fr | e]; [| left; exact Hm].
  rewrite snd_bind.
  pose proof (append_result_state W tc fr
                (snd (call_function W (fn_name (tc_function tc)) args
                        (mk_state (messages s ++ [AssistantMsg None tool_calls])
                                  (network s) (model_calls s))))) as (_ & _ & Ha).
  cbv zeta in Ha. rewrite Hm in Ha.
  assert (Hgoal : forall s2 : state,
             (messages s2 = (messages s ++ [AssistantMsg None tool_calls])%list
              \/ exists m,
                  messages s2 = ((messages s ++ [AssistantMsg None tool_calls]) ++ [m])%list
                  /\ is_tool_result m = true) ->
             messages s2 = (messages s ++ [AssistantMsg None tool_calls])%list
             \/ exists m,
                 messages s2 = (messages s ++ [AssistantMsg None tool_calls; m])%list
                 /\ is_tool_result m = true).
  { intros s2 [H | (m & H & Hm2)]; [left; exact H |].
    right. exists m. rewrite <- app_assoc in H. split; assumption. }
  destruct (fst (append_result W tc fr _)); [| apply Hgoal, Ha].
  rewrite final_answer_state. apply Hgoal, Ha.
Qed.

(** However a run ends, its conversation holds one tool result at most. *)
Lemma script_tool_results (W : World) :
  List.length (tool_results (messages (snd (script W initial_state)))) <= 1.
Proof.
  unfold script. rewrite snd_bind. unfold create at 1 2. simpl fst. simpl snd.
  destruct (completions_create W "gpt-4o" initial_messages tools) as [response | e];
    [| apply Nat.le_0_l].
  rewrite snd_bind, first_message_state.
  destruct (fst (first_message response _)) as [message | e]; [| apply Nat.le_0_l].
  destruct (negb (truthy_list (cm_tool_calls message))); [apply Nat.le_0_l |].
  match goal with
  | |- context [tool_round W ?tcs ?s] =>
      destruct (tool_round_messages W tcs s) as [H | (m & H & Hm)]
  end; rewrite H; unfold tool_results; rewrite filter_app; simpl.
  - apply Nat.le_0_l.
  - rewrite Hm. apply Nat.le_refl.
Qed.

(** C6.  When the first response of the model holds no tool call
    ([tool_calls] is [None] or the empty list), the run ends normally with
    the content of that response; no request went to a backend, the
    completion service was called once, with the opening conversation, and
    the conversation is unchanged. *)
Theorem script_without_tool_calls (W : World) (response : chat_response)
    (message : chat_message) (rest : list chat_message) :
  completions_create W "gpt-4o" initial_messages tools = Ret response ->
  choices response = message :: rest ->
  truthy_list (cm_tool_calls message) = false ->
  script W initial_state =
  (Ret (cm_content message), mk_state initial_messages [] [initial_messages]).
Proof.
  intros Hcreate Hchoices Hnone.
  unfold script, bind, create.
  change (messages initial_state) with initial_messages.
  rewrite Hcreate. unfold first_message. rewrite Hchoices. unfold ret at 1.
  rewrite Hnone. reflexivity.
Qed.

Lemma script_without_tool_calls_witness :
  script Demo.W_plain initial_state =
  (Ret (Some "CCF has no open BCM request."),
   mk_state initial_messages [] [initial_messages]).
Proof.
  apply (script_without_tool_calls Demo.W_plain Demo.plain_answer
           (mk_chat_message (Some "CCF has no open BCM request.") None) []);
    reflexivity.
Defined.

(** C1, on the code.  A run appends one tool result at most, whatever the
    number of tool calls in the response.  With two calls of
    [get_BCM_Request] in one response, [call_1] and [call_2], the run ends
    normally; one request went out, for the payload of [call_2]; the
    conversation sent with the second call of the model holds the single
    tool result of [call_2] and none for [call_1]. *)
Theorem script_reports_one_tool_call_at_most :
  (forall W, List.length (tool_results (messages (snd (script W initial_state)))) <= 1)
  /\ fst (script Demo.W_two_calls initial_state)
     = Ret (Some "Here is what the BCM service returned.")
  /\ tool_results (messages (snd (script Demo.W_two_calls initial_state)))
     = [ToolMsg "call_2" (PyJson.dumps None true Demo.backend_result)]
  /\ map rq_json (network (snd (script Demo.W_two_calls initial_state)))
     = [Demo.payload_id]
  /\ model_calls (snd (script Demo.W_two_calls initial_state))
     = [initial_messages; messages (snd (script Demo.W_two_calls initial_state))].
Proof.
  split; [exact script_tool_results |].
  repeat split; vm_compute; reflexivity.
Qed.

(** The first part of a run in which the model asked for tools and every
    argument text parsed: the assistant's message is appended and the loop
    ends on the last tool call. *)
Lemma script_reaches_last_call (W : World) (response : chat_response)
    (message : chat_message) (rest : list chat_message)
    (tcs : list tool_call) (tc : tool_call) (args : json) :
  completions_create W "gpt-4o" initial_messages tools = Ret response ->
  choices response = message :: rest ->
  cm_tool_calls message = Some (tcs ++ [tc])%list ->
  Forall (fun c => exists a, json_loads W (fn_arguments (tc_function c)) = Ret a) tcs ->
  json_loads W (fn_arguments (tc_function tc)) = Ret args ->
  script W initial_state =
  (function_response <- call_function W (fn_name (tc_function tc)) args ;;
   append_result W tc function_response ;;
   final_answer W)
    (mk_state (initial_messages ++ [AssistantMsg None (Some (tcs ++ [tc])%list)])
              [] [initial_messages]).
Proof.
  intros Hcreate Hchoices Hcalls Hall Hlast.
  unfold script. unfold bind at 1, create at 1.
  change (messages initial_state) with initial_messages.
  rewrite Hcreate. unfold bind at 1, first_message at 1. rewrite Hchoices.
  unfold ret at 1. rewrite Hcalls.
  replace (negb (truthy_list (Some (tcs ++ [tc])%list))) with false
    by (destruct tcs; reflexivity).
  unfold tool_round. unfold bind at 1, messages_append at 1.
  unfold bind at 1.
  rewrite (parse_arguments_loop_last W tcs tc args) by assumption.
  reflexivity.
Qed.

(** C4, on the code.  When the last tool call of the response names a tool
    other than [get_BCM_Request], the run ends with an [AttributeError]:
    [call_function] gives [None], and both [function_response.json()] and
    the handler's [function_response.text] fail on it.  No tool result is
    appended, nothing is sent, and the model is not called again. *)
Theorem script_unknown_tool_raises (W : World) (response : chat_response)
    (message : chat_message) (rest : list chat_message)
    (tcs : list tool_call) (tc : tool_call) (args : json) :
  completions_create W "gpt-4o" initial_messages tools = Ret response ->
  choices response = message :: rest ->
  cm_tool_calls message = Some (tcs ++ [tc])%list ->
  Forall (fun c => exists a, json_loads W (fn_arguments (tc_function c)) = Ret a) tcs ->
  json_loads W (fn_arguments (tc_function tc)) = Ret args ->
  String.eqb (fn_name (tc_function tc)) "get_BCM_Request" = false ->
  script W initial_state =
  (Raise (AttributeError "NoneType" "text"),
   mk_state (initial_messages ++ [AssistantMsg None (Some (tcs ++ [tc])%list)])
            [] [initial_messages]).
Proof.
  intros Hcreate Hchoices Hcalls Hall Hlast Hname.
  rewrite (script_reaches_last_call W response message rest tcs tc args) by assumption.
  unfold bind at 1. rewrite call_function_other_name by assumption.
  reflexivity.
Qed.

Lemma script_unknown_tool_raises_witness :
  script Demo.W_unknown initial_state =
  (Raise (AttributeError "NoneType" "text"),
   mk_state (initial_messages ++ [AssistantMsg None (Some [Demo.unknown_call])])
            [] [initial_messages]).
Proof.
  apply (script_unknown_tool_raises Demo.W_unknown (Demo.asks [Demo.unknown_call])
           (mk_chat_message None (Some [Demo.unknown_call])) [] [] Demo.unknown_call
           (JObj []));
    try reflexivity.
  constructor.
Defined.

(** C5, on the code.  When the last tool call is a BCM search and the
    transport raises (a timeout, a refused connection), the exception
    leaves [search_BCM_Request], [call_function] and the script: the run
    ends with it, after the one request, with no tool result appended and
    no second call of the model. *)
Theorem script_transport_failure_raises (W : World) (response : chat_response)
    (message : chat_message) (rest : list chat_message)
    (tcs : list tool_call) (tc : tool_call) (args payload method endpoint : json)
    (exc : exn) :
  completions_create W "gpt-4o" initial_messages tools = Ret response ->
  choices response = message :: rest ->
  cm_tool_calls message = Some (tcs ++ [tc])%list ->
  Forall (fun c => exists a, json_loads W (fn_arguments (tc_function c)) = Ret a) tcs ->
  json_loads W (fn_arguments (tc_function tc)) = Ret args ->
  fn_name (tc_function tc) = "get_BCM_Request" ->
  bind_kwargs args = Ret (payload, method, endpoint) ->
  http_send W (BCM_request W payload endpoint) = Raise exc ->
  script W initial_state =
  (Raise exc,
   mk_state (initial_messages ++ [AssistantMsg None (Some (tcs ++ [tc])%list)])
            [BCM_request W payload endpoint] [initial_messages]).
Proof.
  intros Hcreate Hchoices Hcalls Hall Hlast Hname Hkw Hsend.
  rewrite (script_reaches_last_call W response message rest tcs tc args) by assumption.
  unfold bind at 1, call_function. rewrite Hname.
  change (String.eqb "get_BCM_Request" "get_BCM_Request") with true. cbv iota.
  unfold bind at 1, lift at 1. rewrite Hkw.
  unfold bind at 1, search_BCM_Request, bind at 1, send at 1. rewrite Hsend.
  reflexivity.
Qed.

Lemma script_transport_failure_raises_witness :
  script Demo.W_down initial_state =
  (Raise Demo.connect_timeout,
   mk_state (initial_messages
               ++ [AssistantMsg None (Some [Demo.BCM_call "call_1" Demo.payload_sid])])
            [BCM_request Demo.W_down Demo.payload_sid (JStr default_endpoint)]
            [initial_messages]).
Proof.
  apply (script_transport_failure_raises Demo.W_down
           (Demo.asks [Demo.BCM_call "call_1" Demo.payload_sid])
           (mk_chat_message None (Some [Demo.BCM_call "call_1" Demo.payload_sid]))
           [] [] (Demo.BCM_call "call_1" Demo.payload_sid)
           (Demo.args_of Demo.payload_sid) Demo.payload_sid (JStr "POST")
           (JStr default_endpoint) Demo.connect_timeout);
    try reflexivity.
  constructor.
Defined.

(** * Further properties of the code *)

(** ** The cockpit tools, path by path *)

(** X1.  A lookup with an identifier whose backend answers with a good
    status and a JSON body returns that body, written with [indent=2] and
    [ensure_ascii=False], whatever it holds; one POST went to the
    [systemdata] path, and the conversation is untouched. *)
Theorem system_details_returns_body (W : World) (sid objid : option string)
    (sysType : string) (sections : option (list string))
    (base_url : option string) (s : state) (resp : response) (result : json) :
  truthy_str sid = true \/ truthy_str objid = true ->
  http_send W (system_details_request (system_details_url base_url)
                 (JObj (system_details_payload sid objid sysType sections))) = Ret resp ->
  resp_raise_for_status resp = None ->
  resp_json resp = Ret result ->
  aicockpit_get_system_details W sid objid sysType sections base_url s =
  (Ret (json_dumps W (Some 2) false result),
   mk_state (messages s)
            (network s ++ [system_details_request (system_details_url base_url)
                             (JObj (system_details_payload sid objid sysType sections))])
            (model_calls s)).
Proof.
  intros Hid Hsend Hstatus Hjson.
  unfold aicockpit_get_system_details, try_except.
  rewrite system_details_try_sends by assumption.
  unfold bind, send, lift, ret. rewrite Hsend, Hstatus, Hjson. reflexivity.
Qed.

(** A body that reports an error comes back as it is, without a [step]. *)
Lemma system_details_returns_body_witness :
  aicockpit_get_system_details Scenario.W_error_body (Some "CCF") None "ABAPSystem"
    (Some ["Tickets"]) None initial_state =
  (Ret (json_dumps Scenario.W_error_body (Some 2) false Scenario.error_body),
   mk_state (messages initial_state)
            (network initial_state
               ++ [system_details_request (system_details_url None)
                     (JObj (system_details_payload (Some "CCF") None "ABAPSystem"
                              (Some ["Tickets"])))])
            (model_calls initial_state)).
Proof.
  apply (system_details_returns_body Scenario.W_error_body (Some "CCF") None "ABAPSystem"
           (Some ["Tickets"]) None initial_state Scenario.error_body_response
           Scenario.error_body);
    [left |..]; reflexivity.
Defined.

Lemma system_details_payload_keys (sid objid : option string) (sysType : string)
    (sections : option (list string)) :
  map fst (system_details_payload sid objid sysType sections) =
  (["sysType"] ++ (if truthy_str sid then ["sid"] else [])
     ++ (if truthy_str objid then ["objid"] else [])
     ++ (if truthy_list sections then ["sections"] else []))%list.
Proof.
  unfold system_details_payload.
  destruct (truthy_str sid), (truthy_str objid), sections as [[| x xs] |]; reflexivity.
Qed.

(** X2.  The body of the request of a lookup with an identifier: [sysType]
    first and always; [sid], [objid] and [sections], in this order, each
    exactly when the argument is truthy (an empty string or an empty list
    is left out, like [None]), with the value that was given; no key
    twice and no other key. *)
Theorem system_details_request_body (W : World) (sid objid : option string)
    (sysType : string) (sections : option (list string))
    (base_url : option string) (s : state) :
  truthy_str sid = true \/ truthy_str objid = true ->
  exists payload,
    network (snd (aicockpit_get_system_details W sid objid sysType sections base_url s))
    = (network s ++ [system_details_request (system_details_url base_url) (JObj payload)])%list
    /\ map fst payload =
       (["sysType"] ++ (if truthy_str sid then ["sid"] else [])
          ++ (if truthy_str objid then ["objid"] else [])
          ++ (if truthy_list sections then ["sections"] else []))%list
    /\ dict_get "sysType" payload = Some (JStr sysType)
    /\ (truthy_str sid = true -> dict_get "sid" payload = Some (JStr (str_value sid)))
    /\ (truthy_str objid = true -> dict_get "objid" payload = Some (JStr (str_value objid)))
    /\ (forall l, truthy_list sections = true -> sections = Some l ->
                  dict_get "sections" payload = Some (JArr (map JStr l))).
Proof.
  intros Hid. exists (system_details_payload sid objid sysType sections).
  split; [| split; [apply system_details_payload_keys |]].
  - unfold aicockpit_get_system_details, try_except.
    rewrite system_details_try_sends by assumption.
    unfold bind, send, lift, ret.
    destruct (http_send W _) as [resp | e]; [| reflexivity].
    destruct (resp_raise_for_status resp); [reflexivity |].
    destruct (resp_json resp); reflexivity.
  - unfold system_details_payload.
    destruct (truthy_str sid), (truthy_str objid), sections as [[| x xs] |];
      repeat split; try reflexivity; try discriminate;
      intros l _ Hl; inversion Hl; reflexivity.
Qed.

Lemma system_details_request_body_witness :
  exists payload,
    network (snd (aicockpit_get_system_details Scenario.W_error_body (Some "CCF")
                    (Some EmptyString) "ABAPSystem" (Some []) None initial_state))
    = (network initial_state
         ++ [system_details_request (system_details_url None) (JObj payload)])%list
    /\ map fst payload = ["sysType"; "sid"]
    /\ dict_get "sid" payload = Some (JStr "CCF").
Proof.
  destruct (system_details_request_body Scenario.W_error_body (Some "CCF")
              (Some EmptyString) "ABAPSystem" (Some []) None initial_state)
    as (payload & Hnet & Hkeys & _ & Hsid & _); [left; reflexivity |].
  exists payload. split; [exact Hnet | split; [exact Hkeys | apply Hsid; reflexivity]].
Defined.

(** X3.  When the lookup's request fails (the transport raises, the status
    is bad, or the body of a good status is no JSON), the result is the
    error descriptor that quotes the exception after the prefix
    [Error in aicockpit_get_system_details: ], with step
    [fetch_system_data].  A bad status wins over the body, which is not
    read then.  The request stays on record. *)
Theorem system_details_relays_exception (W : World) (sid objid : option string)
    (sysType : string) (sections : option (list string))
    (base_url : option string) (s : state) (e : exn) :
  truthy_str sid = true \/ truthy_str objid = true ->
  let rq := system_details_request (system_details_url base_url)
              (JObj (system_details_payload sid objid sysType sections)) in
  (http_send W rq = Raise e
   \/ exists resp,
        http_send W rq = Ret resp
        /\ (resp_raise_for_status resp = Some e
            \/ (resp_raise_for_status resp = None /\ resp_json resp = Raise e))) ->
  aicockpit_get_system_details W sid objid sysType sections base_url s =
  (Ret (json_dumps W (Some 2) true
          (error_descriptor ("Error in aicockpit_get_system_details: " ++ exn_str e)
                            "fetch_system_data")),
   mk_state (messages s) (network s ++ [rq]) (model_calls s)).
Proof.
  intros Hid rq Hfail.
  unfold aicockpit_get_system_details, try_except.
  rewrite system_details_try_sends by assumption.
  unfold bind, send, lift, ret. fold rq.
  destruct Hfail as [Hsend | (resp & Hsend & [Hstatus | [Hstatus Hjson]])];
    rewrite Hsend; [reflexivity | |]; rewrite Hstatus; [reflexivity |].
  rewrite Hjson. reflexivity.
Qed.

Lemma system_details_relays_exception_witness :
  aicockpit_get_system_details Scenario.W_error None (Some "0050569E") "ABAPSystem"
    None (Some "https://slim.example") initial_state =
  (Ret (json_dumps Scenario.W_error (Some 2) true
          (error_descriptor
             ("Error in aicockpit_get_system_details: "
                ++ exn_str Scenario.status_error)
             "fetch_system_data")),
   mk_state (messages initial_state)
            (network initial_state
               ++ [system_details_request (system_details_url (Some "https://slim.example"))
                     (JObj (system_details_payload None (Some "0050569E") "ABAPSystem" None))])
            (model_calls initial_state)).
Proof.
  apply (system_details_relays_exception Scenario.W_error None (Some "0050569E")
           "ABAPSystem" None (Some "https://slim.example") initial_state
           Scenario.status_error).
  - right. reflexivity.
  - right. exists Scenario.error_response. split; [reflexivity | left; reflexivity].
Defined.

(** X4.  The section query with a good status and a JSON body: a body that
    is an object is returned, written with [indent=2] and
    [ensure_ascii=False]; any other body (a list, a string, a number,
    [null]) ends in the error descriptor of step [fetch_sections], from the
    [AttributeError] of [result.get] at line 178.  One GET went out either
    way. *)
Theorem sections_by_body (W : World) (base_url : option string) (s : state)
    (resp : response) (result : json) :
  http_send W (sections_request (sections_url base_url)) = Ret resp ->
  resp_raise_for_status resp = None ->
  resp_json resp = Ret result ->
  aicockpit_get_sections W base_url s =
  (Ret (match result with
        | JObj _ => json_dumps W (Some 2) false result
        | _ => json_dumps W (Some 2) true
                 (error_descriptor
                    ("Error in aicockpit_get_sections: '" ++ py_type_name result
                       ++ "' object has no attribute 'get'")
                    "fetch_sections")
        end),
   mk_state (messages s) (network s ++ [sections_request (sections_url base_url)])
            (model_calls s)).
Proof.
  intros Hsend Hstatus Hjson.
  unfold aicockpit_get_sections, try_except, aicockpit_get_sections_try.
  unfold bind, send, lift, ret.
  change (match base_url with
          | Some u => u
          | None => "https://dlm/slim/"
          end ++ "/rest/external/aicockpit/sections") with (sections_url base_url).
  rewrite Hsend, Hstatus, Hjson. destruct result; reflexivity.
Qed.

Lemma sections_by_body_witness :
  aicockpit_get_sections Scenario.W_list None initial_state =
  (Ret (json_dumps Scenario.W_list (Some 2) true
          (error_descriptor
             "Error in aicockpit_get_sections: 'list' object has no attribute 'get'"
             "fetch_sections")),
   mk_state (messages initial_state)
            (network initial_state ++ [sections_request (sections_url None)])
            (model_calls initial_state)).
Proof.
  apply (sections_by_body Scenario.W_list None initial_state Scenario.list_response
           (JArr [])); reflexivity.
Defined.

(** X5.  When the section query fails before its body is there (the
    transport raises, the status is bad, or the body is no JSON), the
    result is the error descriptor that quotes the exception after the
    prefix [Error in aicockpit_get_sections: ], with step
    [fetch_sections]. *)
Theorem sections_relays_exception (W : World) (base_url : option string)
    (s : state) (e : exn) :
  let rq := sections_request (sections_url base_url) in
  (http_send W rq = Raise e
   \/ exists resp,
        http_send W rq = Ret resp
        /\ (resp_raise_for_status resp = Some e
            \/ (resp_raise_for_status resp = None /\ resp_json resp = Raise e))) ->
  aicockpit_get_sections W base_url s =
  (Ret (json_dumps W (Some 2) true
          (error_descriptor ("Error in aicockpit_get_sections: " ++ exn_str e)
                            "fetch_sections")),
   mk_state (messages s) (network s ++ [rq]) (model_calls s)).
Proof.
  intros rq Hfail.
  unfold aicockpit_get_sections, try_except, aicockpit_get_sections_try.
  unfold bind, send, lift, ret.
  change (match base_url with
          | Some u => u
          | None => "https://dlm/slim/"
          end ++ "/rest/external/aicockpit/sections") with (sections_url base_url).
  fold rq.
  destruct Hfail as [Hsend | (resp & Hsend & [Hstatus | [Hstatus Hjson]])];
    rewrite Hsend; [reflexivity | |]; rewrite Hstatus; [reflexivity |].
  rewrite Hjson. reflexivity.
Qed.

Lemma sections_relays_exception_witness :
  aicockpit_get_sections Scenario.W_html (Some "https://slim.example") initial_state =
  (Ret (json_dumps Scenario.W_html (Some 2) true
          (error_descriptor
             ("Error in aicockpit_get_sections: " ++ exn_str Scenario.json_error)
             "fetch_sections")),
   mk_state (messages initial_state)
            (network initial_state
               ++ [sections_request (sections_url (Some "https://slim.example"))])
            (model_calls initial_state)).
Proof.
  apply (sections_relays_exception Scenario.W_html (Some "https://slim.example")
           initial_state Scenario.json_error).
  right. exists Scenario.html_response. split; [reflexivity | right; split; reflexivity].
Defined.

(** X6.  The backend functions leave the conversation alone: whatever the
    arguments and the world, neither cockpit tool, nor the BCM search, nor
    the dispatcher changes [messages] or calls the completion service. *)
Theorem backend_functions_keep_conversation (W : World) (s : state) :
  (forall sid objid sysType sections base_url,
      let s' := snd (aicockpit_get_system_details W sid objid sysType sections base_url s) in
      messages s' = messages s /\ model_calls s' = model_calls s)
  /\ (forall base_url,
         let s' := snd (aicockpit_get_sections W base_url s) in
         messages s' = messages s /\ model_calls s' = model_calls s)
  /\ (forall payload method endpoint,
         let s' := snd (search_BCM_Request W payload method endpoint s) in
         messages s' = messages s /\ model_calls s' = model_calls s)
  /\ (forall name args,
         let s' := snd (call_function W name args s) in
         messages s' = messages s /\ model_calls s' = model_calls s).
Proof.
  split; [| split; [| split]].
  - intros sid objid sysType sections base_url.
    unfold aicockpit_get_system_details, try_except, aicockpit_get_system_details_try.
    destruct (negb (truthy_str sid) && negb (truthy_str objid)); [split; reflexivity |].
    unfold bind, send, lift, ret.
    destruct (http_send W _) as [resp | e]; [| split; reflexivity].
    destruct (resp_raise_for_status resp); [split; reflexivity |].
    destruct (resp_json resp); split; reflexivity.
  - intros base_url.
    unfold aicockpit_get_sections, try_except, aicockpit_get_sections_try.
    unfold bind, send, lift, ret.
    destruct (http_send W _) as [resp | e]; [| split; reflexivity].
    destruct (resp_raise_for_status resp); [split; reflexivity |].
    destruct (resp_json resp) as [result | e]; [| split; reflexivity].
    destruct result; split; reflexivity.
  - intros payload method endpoint. cbv zeta.
    rewrite search_BCM_Request_state. split; reflexivity.
  - intros name args. apply call_function_state.
Qed.

(** ** The BCM search and the dispatcher, path by path *)

(** The search returns what the backend gave when [resp.json()] returns or
    raises a [ValueError]. *)
Lemma search_BCM_Request_run (W : World) (payload method endpoint : json)
    (s : state) (resp : response) :
  http_send W (BCM_request W payload endpoint) = Ret resp ->
  (forall e, resp_json resp = Raise e -> isinstance e "ValueError" = true) ->
  search_BCM_Request W payload method endpoint s =
  (Ret resp,
   mk_state (messages s) (network s ++ [BCM_request W payload endpoint]) (model_calls s)).
Proof.
  intros Hsend Hvalue.
  unfold search_BCM_Request, bind, send, ret, raise. rewrite Hsend.
  destruct (resp_json resp) as [v | e] eqn:Hjson; [reflexivity |].
  rewrite (Hvalue e eq_refl). reflexivity.
Qed.

(** X7.  [search_BCM_Request] returns the response object as the backend
    gave it, whatever its status code (the status is never checked) and
    whether or not its body is JSON, and whatever [method] says: the one
    request is the POST built from the payload and the endpoint. *)
Theorem search_BCM_Request_returns_response (W : World)
    (payload method endpoint : json) (s : state) (resp : response) :
  http_send W (BCM_request W payload endpoint) = Ret resp ->
  (forall e, resp_json resp = Raise e -> isinstance e "ValueError" = true) ->
  search_BCM_Request W payload method endpoint s =
  (Ret resp,
   mk_state (messages s) (network s ++ [BCM_request W payload endpoint]) (model_calls s))
  /\ rq_method (BCM_request W payload endpoint) = "POST".
Proof.
  intros Hsend Hvalue. split; [| reflexivity].
  now apply search_BCM_Request_run.
Qed.

(** Status 500 with a body that is no JSON, and [method] set to [GET]. *)
Lemma search_BCM_Request_returns_response_witness :
  search_BCM_Request Scenario.W_error Demo.payload_sid (JStr "GET")
    (JStr default_endpoint) initial_state =
  (Ret Scenario.error_response,
   mk_state (messages initial_state)
            (network initial_state
               ++ [BCM_request Scenario.W_error Demo.payload_sid (JStr default_endpoint)])
            (model_calls initial_state))
  /\ rq_method (BCM_request Scenario.W_error Demo.payload_sid (JStr default_endpoint))
     = "POST".
Proof.
  apply (search_BCM_Request_returns_response Scenario.W_error Demo.payload_sid
           (JStr "GET") (JStr default_endpoint) initial_state Scenario.error_response).
  - reflexivity.
  - intros e He. inversion He. reflexivity.
Defined.

Lemma find_unknown_keyword (d : list (string * json)) :
  match find (fun kv => negb (existsb (String.eqb (fst kv)) search_BCM_Request_params)) d with
  | None => kwargs_known d = true
  | Some _ => kwargs_known d = false
  end.
Proof.
  unfold kwargs_known. induction d as [| kv rest IH]; [reflexivity |].
  cbn [find forallb].
  destruct (existsb (String.eqb (fst kv)) search_BCM_Request_params);
    [exact IH | reflexivity].
Qed.

(** X8.  The arguments of the model bind to the parameters of
    [search_BCM_Request] exactly when they are a dictionary whose keys are
    among [payload], [method] and [endpoint]; a parameter that is given
    takes the value given, one that is not takes its default ([None],
    [POST], the default endpoint).  Anything else is a [TypeError]. *)
Theorem bind_kwargs_binds (args : json) :
  match bind_kwargs args with
  | Ret (payload, method, endpoint) =>
      exists d,
        args = JObj d /\ kwargs_known d = true
        /\ payload = dict_get_default "payload" JNull d
        /\ method = dict_get_default "method" (JStr "POST") d
        /\ endpoint = dict_get_default "endpoint" (JStr default_endpoint) d
  | Raise e =>
      isinstance e "TypeError" = true
      /\ forall d, args = JObj d -> kwargs_known d = false
  end.
Proof.
  destruct args as [| b | n | str | items | d]; cbn [bind_kwargs];
    try (split; [reflexivity | intros d' Hd; discriminate Hd]).
  pose proof (find_unknown_keyword d) as Hfind.
  destruct (find _ d) as [[k v] |].
  - split; [reflexivity | intros d' Hd; inversion Hd; subst; exact Hfind].
  - exists d. repeat split. exact Hfind.
Qed.

(** X9.  Arguments that do not bind (no dictionary, or a key that is no
    parameter) make [call_function] raise a [TypeError] before anything is
    sent: the state is as it was. *)
Theorem call_function_rejects_arguments (W : World) (args : json) (s : state) :
  (forall d, args = JObj d -> kwargs_known d = false) ->
  exists e,
    call_function W "get_BCM_Request" args s = (Raise e, s)
    /\ isinstance e "TypeError" = true.
Proof.
  intros Hbad.
  unfold call_function. change (String.eqb "get_BCM_Request" "get_BCM_Request") with true.
  cbv iota. unfold bind, lift.
  destruct args as [| b | n | str | items | d]; cbn [bind_kwargs];
    try (eexists; split; reflexivity).
  pose proof (find_unknown_keyword d) as Hfind.
  destruct (find _ d) as [[k v] |].
  - eexists; split; reflexivity.
  - rewrite (Hbad d eq_refl) in Hfind. discriminate.
Qed.

Lemma call_function_rejects_arguments_witness :
  exists e,
    call_function Scenario.W_bad_key "get_BCM_Request" Scenario.args_with_filters
      initial_state = (Raise e, initial_state)
    /\ isinstance e "TypeError" = true.
Proof.
  apply (call_function_rejects_arguments Scenario.W_bad_key Scenario.args_with_filters
           initial_state).
  intros d Hd. inversion Hd. reflexivity.
Defined.

(** X10.  Arguments that bind make [call_function] send one POST: its
    body is the [payload] given, [None] when there is none, and its URL is
    the [endpoint] given, the default endpoint when there is none, followed
    by the fixed query.  When the backend answers, the value is that
    response. *)
Theorem call_function_sends_bound_arguments (W : World) (d : list (string * json))
    (s : state) :
  kwargs_known d = true ->
  let rq := BCM_request W (dict_get_default "payload" JNull d)
                        (dict_get_default "endpoint" (JStr default_endpoint) d) in
  network (snd (call_function W "get_BCM_Request" (JObj d) s)) = (network s ++ [rq])%list
  /\ rq_json rq = dict_get_default "payload" JNull d
  /\ rq_url rq = format_value W (dict_get_default "endpoint" (JStr default_endpoint) d)
                 ++ "?sap-client=200&IS_GENERIC=X"
  /\ (forall resp,
         http_send W rq = Ret resp ->
         (forall e, resp_json resp = Raise e -> isinstance e "ValueError" = true) ->
         fst (call_function W "get_BCM_Request" (JObj d) s) = Ret (Some resp)).
Proof.
  intros Hknown rq.
  unfold call_function. change (String.eqb "get_BCM_Request" "get_BCM_Request") with true.
  cbv iota. unfold bind at 1, lift. cbn [bind_kwargs].
  pose proof (find_unknown_keyword d) as Hfind.
  destruct (find _ d) as [[k v] |]; [rewrite Hknown in Hfind; discriminate |].
  change (match dict_get "payload" d with Some v => v | None => JNull end)
    with (dict_get_default "payload" JNull d).
  change (match dict_get "endpoint" d with Some v => v | None => JStr default_endpoint end)
    with (dict_get_default "endpoint" (JStr default_endpoint) d).
  set (method := match dict_get "method" d with Some v => v | None => JStr "POST" end).
  fold rq.
  pose proof (search_BCM_Request_state W (dict_get_default "payload" JNull d) method
                (dict_get_default "endpoint" (JStr default_endpoint) d) s) as Hstate.
  fold rq in Hstate.
  split; [| split; [reflexivity | split; [reflexivity |]]].
  - unfold bind.
    destruct (search_BCM_Request W _ method _ s) as [[resp | e] s'];
      simpl in Hstate; subst s'; reflexivity.
  - intros resp Hsend Hvalue. unfold bind.
    rewrite (search_BCM_Request_run W (dict_get_default "payload" JNull d) method
               (dict_get_default "endpoint" (JStr default_endpoint) d) s resp Hsend Hvalue).
    reflexivity.
Qed.

(** Empty arguments: a POST without a body to the default endpoint. *)
Lemma call_function_sends_bound_arguments_witness :
  map (fun rq => (rq_url rq, rq_json rq))
      (network (snd (call_function Demo.W_one_call "get_BCM_Request" (JObj []) initial_state)))
  = [("https://ldciade.wdf.sap.corp:44315/sap/bc/abap/DLMD/BCM_READ_DATA?sap-client=200&IS_GENERIC=X",
      JNull)].
Proof.
  destruct (call_function_sends_bound_arguments Demo.W_one_call [] initial_state eq_refl)
    as (Hnet & _).
  rewrite Hnet. reflexivity.
Defined.

(** ** The script, path by path *)

(** A run whose last tool call is a BCM search that the backend answers:
    what is left is to append the result and to ask the model again. *)
Lemma script_with_response (W : World) (first : chat_response)
    (message : chat_message) (rest : list chat_message)
    (tcs : list tool_call) (tc : tool_call) (args payload method endpoint : json)
    (resp : response) :
  completions_create W "gpt-4o" initial_messages tools = Ret first ->
  choices first = message :: rest ->
  cm_tool_calls message = Some (tcs ++ [tc])%list ->
  Forall (fun c => exists a, json_loads W (fn_arguments (tc_function c)) = Ret a) tcs ->
  json_loads W (fn_arguments (tc_function tc)) = Ret args ->
  fn_name (tc_function tc) = "get_BCM_Request" ->
  bind_kwargs args = Ret (payload, method, endpoint) ->
  http_send W (BCM_request W payload endpoint) = Ret resp ->
  (forall e, resp_json resp = Raise e -> isinstance e "ValueError" = true) ->
  script W initial_state =
  (append_result W tc (Some resp) ;; final_answer W)
    (mk_state (initial_messages ++ [AssistantMsg None (Some (tcs ++ [tc])%list)])
              [BCM_request W payload endpoint] [initial_messages]).
Proof.
  intros Hcreate Hchoices Hcalls Hall Hlast Hname Hkw Hsend Hvalue.
  rewrite (script_reaches_last_call W first message rest tcs tc args) by assumption.
  unfold bind at 1, call_function. rewrite Hname.
  change (String.eqb "get_BCM_Request" "get_BCM_Request") with true. cbv iota.
  unfold bind at 1, lift at 1. rewrite Hkw.
  unfold bind at 1.
  rewrite (search_BCM_Request_run W payload method endpoint _ resp Hsend Hvalue).
  reflexivity.
Qed.

(** X11.  The run of one BCM search that succeeds.  When the last tool call
    of the response is [get_BCM_Request], its arguments bind, and the
    backend answers with a JSON body, the conversation grows by the
    assistant's message (with content [None]) and by one message of role
    [tool] that carries the id of that call and the body written by
    [json.dumps]; this conversation goes to the model, and the run ends
    with the content of its answer, or with [(no content)] when there is
    none. *)
Theorem script_appends_tool_message (W : World) (first : chat_response)
    (message : chat_message) (rest : list chat_message)
    (tcs : list tool_call) (tc : tool_call) (args payload method endpoint : json)
    (resp : response) (result : json) (second : chat_response)
    (final : chat_message) (rest2 : list chat_message) :
  completions_create W "gpt-4o" initial_messages tools = Ret first ->
  choices first = message :: rest ->
  cm_tool_calls message = Some (tcs ++ [tc])%list ->
  Forall (fun c => exists a, json_loads W (fn_arguments (tc_function c)) = Ret a) tcs ->
  json_loads W (fn_arguments (tc_function tc)) = Ret args ->
  fn_name (tc_function tc) = "get_BCM_Request" ->
  bind_kwargs args = Ret (payload, method, endpoint) ->
  http_send W (BCM_request W payload endpoint) = Ret resp ->
  resp_json resp = Ret result ->
  let conversation :=
    (initial_messages ++ [AssistantMsg None (Some (tcs ++ [tc])%list);
                          ToolMsg (tc_id tc) (json_dumps W None true result)])%list in
  completions_create W "gpt-4o" conversation tools = Ret second ->
  choices second = final :: rest2 ->
  script W initial_state =
  (Ret (Some (str_or (cm_content final) "(no content)")),
   mk_state conversation [BCM_request W payload endpoint] [initial_messages; conversation]).
Proof.
  intros Hcreate Hchoices Hcalls Hall Hlast Hname Hkw Hsend Hjson conversation
         Hsecond Hfinal.
  rewrite (script_with_response W first message rest tcs tc args payload method
             endpoint resp) by (try assumption; intros e He; congruence).
  unfold bind at 1, append_result, try_except, bind at 1, lift. rewrite Hjson.
  unfold messages_append. cbn [messages network model_calls].
  unfold final_answer, bind at 1, create.
  cbn [messages network model_calls]. rewrite <- app_assoc. cbn [app].
  fold conversation. rewrite Hsecond.
  unfold bind, first_message. rewrite Hfinal. reflexivity.
Qed.

Lemma script_appends_tool_message_witness :
  script Scenario.W_silent initial_state =
  (Ret (Some "(no content)"),
   mk_state
     (initial_messages
        ++ [AssistantMsg None (Some [Demo.BCM_call "call_1" Demo.payload_sid]);
            ToolMsg "call_1" (json_dumps Scenario.W_silent None true Demo.backend_result)])
     [BCM_request Scenario.W_silent Demo.payload_sid (JStr default_endpoint)]
     [initial_messages;
      (initial_messages
         ++ [AssistantMsg None (Some [Demo.BCM_call "call_1" Demo.payload_sid]);
             ToolMsg "call_1" (json_dumps Scenario.W_silent None true Demo.backend_result)])%list]).
Proof.
  apply (script_appends_tool_message Scenario.W_silent Scenario.one_BCM_call
           (mk_chat_message None (Some [Demo.BCM_call "call_1" Demo.payload_sid]))
           [] [] (Demo.BCM_call "call_1" Demo.payload_sid)
           (Demo.args_of Demo.payload_sid) Demo.payload_sid (JStr "POST")
           (JStr default_endpoint)
           (mk_response 200 (PyJson.dumps None true Demo.backend_result)
                        (Ret Demo.backend_result) None)
           Demo.backend_result
           (mk_chat_response [mk_chat_message None None])
           (mk_chat_message None None) []);
    try reflexivity.
  constructor.
Defined.

(** X12.  The run of one BCM search whose answer is no JSON.  When
    [resp.json()] raises a [ValueError], whatever the status code, the
    message appended after the assistant's has role [function], the name of
    the tool and the raw text of the response; the run goes on to the second
    call of the model as before. *)
Theorem script_appends_function_message (W : World) (first : chat_response)
    (message : chat_message) (rest : list chat_message)
    (tcs : list tool_call) (tc : tool_call) (args payload method endpoint : json)
    (resp : response) (e : exn) (second : chat_response)
    (final : chat_message) (rest2 : list chat_message) :
  completions_create W "gpt-4o" initial_messages tools = Ret first ->
  choices first = message :: rest ->
  cm_tool_calls message = Some (tcs ++ [tc])%list ->
  Forall (fun c => exists a, json_loads W (fn_arguments (tc_function c)) = Ret a) tcs ->
  json_loads W (fn_arguments (tc_function tc)) = Ret args ->
  fn_name (tc_function tc) = "get_BCM_Request" ->
  bind_kwargs args = Ret (payload, method, endpoint) ->
  http_send W (BCM_request W payload endpoint) = Ret resp ->
  resp_json resp = Raise e ->
  isinstance e "ValueError" = true ->
  let conversation :=
    (initial_messages ++ [AssistantMsg None (Some (tcs ++ [tc])%list);
                          FunctionMsg "get_BCM_Request" (resp_text resp)])%list in
  completions_create W "gpt-4o" conversation tools = Ret second ->
  choices second = final :: rest2 ->
  script W initial_state =
  (Ret (Some (str_or (cm_content final) "(no content)")),
   mk_state conversation [BCM_request W payload endpoint] [initial_messages; conversation]).
Proof.
  intros Hcreate Hchoices Hcalls Hall Hlast Hname Hkw Hsend Hjson Hvalue conversation
         Hsecond Hfinal.
  rewrite (script_with_response W first message rest tcs tc args payload method
             endpoint resp) by (try assumption; intros e' He; congruence).
  unfold bind at 1, append_result, try_except, bind at 1, lift. rewrite Hjson.
  unfold bind at 1, ret at 1, messages_append. cbn [messages network model_calls].
  rewrite Hname.
  unfold final_answer, bind at 1, create.
  cbn [messages network model_calls]. rewrite <- app_assoc. cbn [app].
  fold conversation. rewrite Hsecond.
  unfold bind, first_message. rewrite Hfinal. reflexivity.
Qed.

Lemma script_appends_function_message_witness :
  script Scenario.W_html initial_state =
  (Ret (Some "Here is what the BCM service returned."),
   mk_state
     (initial_messages
        ++ [AssistantMsg None (Some [Demo.BCM_call "call_1" Demo.payload_sid]);
            FunctionMsg "get_BCM_Request" "<html>Logon</html>"])
     [BCM_request Scenario.W_html Demo.payload_sid (JStr default_endpoint)]
     [initial_messages;
      (initial_messages
         ++ [AssistantMsg None (Some [Demo.BCM_call "call_1" Demo.payload_sid]);
             FunctionMsg "get_BCM_Request" "<html>Logon</html>"])%list]).
Proof.
  apply (script_appends_function_message Scenario.W_html Scenario.one_BCM_call
           (mk_chat_message None (Some [Demo.BCM_call "call_1" Demo.payload_sid]))
           [] [] (Demo.BCM_call "call_1" Demo.payload_sid)
           (Demo.args_of Demo.payload_sid) Demo.payload_sid (JStr "POST")
           (JStr default_endpoint) Scenario.html_response Scenario.json_error
           Demo.final_response
           (mk_chat_message (Some "Here is what the BCM service returned.") None) []);
    try reflexivity.
  constructor.
Defined.

Lemma parse_arguments_loop_raises (W : World) (before : list tool_call)
    (tc : tool_call) (after : list tool_call) (e : exn) vars s :
  Forall (fun c => exists a, json_loads W (fn_arguments (tc_function c)) = Ret a) before ->
  json_loads W (fn_arguments (tc_function tc)) = Raise e ->
  parse_arguments_loop W (before ++ tc :: after) vars s = (Raise e, s).
Proof.
  intros Hall Hbad. revert vars.
  induction Hall as [| c rest [a Ha] _ IH]; intros vars; simpl; unfold bind, lift.
  - rewrite Hbad. reflexivity.
  - rewrite Ha. apply IH.
Qed.

(** X13.  Arguments that are no JSON end the run, in whichever tool call
    of the response they stand: [json.loads] raises in the loop, after the
    assistant's message was appended and before anything is sent, so no
    tool runs, also not one whose arguments are fine. *)
Theorem script_malformed_arguments_raise (W : World) (first : chat_response)
    (message : chat_message) (rest : list chat_message)
    (before : list tool_call) (tc : tool_call) (after : list tool_call) (e : exn) :
  completions_create W "gpt-4o" initial_messages tools = Ret first ->
  choices first = message :: rest ->
  cm_tool_calls message = Some (before ++ tc :: after)%list ->
  Forall (fun c => exists a, json_loads W (fn_arguments (tc_function c)) = Ret a) before ->
  json_loads W (fn_arguments (tc_function tc)) = Raise e ->
  script W initial_state =
  (Raise e,
   mk_state (initial_messages ++ [AssistantMsg None (Some (before ++ tc :: after)%list)])
            [] [initial_messages]).
Proof.
  intros Hcreate Hchoices Hcalls Hall Hbad.
  unfold script. unfold bind at 1, create at 1.
  change (messages initial_state) with initial_messages.
  rewrite Hcreate. unfold bind at 1, first_message at 1. rewrite Hchoices.
  unfold ret at 1. rewrite Hcalls.
  replace (negb (truthy_list (Some (before ++ tc :: after)%list))) with false
    by (destruct before; reflexivity).
  unfold tool_round. unfold bind at 1, messages_append at 1.
  unfold bind at 1.
  rewrite (parse_arguments_loop_raises W before tc after e) by assumption.
  reflexivity.
Qed.

Lemma script_malformed_arguments_raise_witness :
  script Scenario.W_malformed initial_state =
  (Raise Scenario.json_error,
   mk_state (initial_messages
               ++ [AssistantMsg None
                     (Some [Scenario.malformed_call;
                            Demo.BCM_call "call_2" Demo.payload_sid])])
            [] [initial_messages]).
Proof.
  apply (script_malformed_arguments_raise Scenario.W_malformed
           (Demo.asks [Scenario.malformed_call; Demo.BCM_call "call_2" Demo.payload_sid])
           (mk_chat_message None
              (Some [Scenario.malformed_call; Demo.BCM_call "call_2" Demo.payload_sid]))
           [] [] Scenario.malformed_call [Demo.BCM_call "call_2" Demo.payload_sid]
           Scenario.json_error);
    try reflexivity.
  constructor.
Defined.

(** X14.  A failure of the completion service is not caught.  When the
    first call raises, the run ends with that exception: nothing is sent
    and the conversation is the opening one.  When the call after a tool
    result raises, the run ends with that exception too, with the request
    sent and the result appended. *)
Theorem script_completion_failure_raises (W : World) (e : exn) :
  (completions_create W "gpt-4o" initial_messages tools = Raise e ->
   script W initial_state = (Raise e, mk_state initial_messages [] [initial_messages]))
  /\ (forall first message rest tcs tc args payload method endpoint resp result,
         completions_create W "gpt-4o" initial_messages tools = Ret first ->
         choices first = message :: rest ->
         cm_tool_calls message = Some (tcs ++ [tc])%list ->
         Forall (fun c => exists a, json_loads W (fn_arguments (tc_function c)) = Ret a)
                tcs ->
         json_loads W (fn_arguments (tc_function tc)) = Ret args ->
         fn_name (tc_function tc) = "get_BCM_Request" ->
         bind_kwargs args = Ret (payload, method, endpoint) ->
         http_send W (BCM_request W payload endpoint) = Ret resp ->
         resp_json resp = Ret result ->
         let conversation :=
           (initial_messages ++ [AssistantMsg None (Some (tcs ++ [tc])%list);
                                 ToolMsg (tc_id tc) (json_dumps W None true result)])%list in
         completions_create W "gpt-4o" conversation tools = Raise e ->
         script W initial_state =
         (Raise e,
          mk_state conversation [BCM_request W payload endpoint]
                   [initial_messages; conversation])).
Proof.
  split.
  - intros Hcreate. unfold script, bind, create.
    change (messages initial_state) with initial_messages.
    rewrite Hcreate. reflexivity.
  - intros first message rest tcs tc args payload method endpoint resp result
           Hcreate Hchoices Hcalls Hall Hlast Hname Hkw Hsend Hjson conversation Hsecond.
    rewrite (script_with_response W first message rest tcs tc args payload method
               endpoint resp) by (try assumption; intros e' He; congruence).
    unfold bind at 1, append_result, try_except, bind at 1, lift. rewrite Hjson.
    unfold messages_append. cbn [messages network model_calls].
    unfold final_answer, bind at 1, create.
    cbn [messages network model_calls]. rewrite <- app_assoc. cbn [app].
    fold conversation. rewrite Hsecond. reflexivity.
Qed.

Lemma script_completion_failure_raises_witness :
  script Scenario.W_model_down initial_state
  = (Raise Scenario.api_error, mk_state initial_messages [] [initial_messages])
  /\ fst (script Scenario.W_second_down initial_state) = Raise Scenario.api_error.
Proof.
  split.
  - apply (script_completion_failure_raises Scenario.W_model_down Scenario.api_error).
    reflexivity.
  - destruct (script_completion_failure_raises Scenario.W_second_down Scenario.api_error)
      as [_ Hsecond].
    rewrite (Hsecond Scenario.one_BCM_call
               (mk_chat_message None (Some [Demo.BCM_call "call_1" Demo.payload_sid]))
               [] [] (Demo.BCM_call "call_1" Demo.payload_sid)
               (Demo.args_of Demo.payload_sid) Demo.payload_sid (JStr "POST")
               (JStr default_endpoint)
               (mk_response 200 (PyJson.dumps None true Demo.backend_result)
                            (Ret Demo.backend_result) None)
               Demo.backend_result);
      try reflexivity.
    constructor.
Defined.

(** ** What every run keeps *)

Lemma call_function_network (W : World) (name : string) (args : json) (s : state) :
  network (snd (call_function W name args s)) = network s
  \/ exists rq, network (snd (call_function W name args s)) = (network s ++ [rq])%list.
Proof.
  unfold call_function.
  destruct (String.eqb name "get_BCM_Request"); [| left; reflexivity].
  unfold bind, lift.
  destruct (bind_kwargs args) as [[[payload method] endpoint] | e]; [| left; reflexivity].
  right. exists (BCM_request W payload endpoint).
  pose proof (search_BCM_Request_state W payload method endpoint s) as Hs.
  destruct (search_BCM_Request W payload method endpoint s) as [[resp | e] s'];
    simpl in *; subst s'; reflexivity.
Qed.

(** The tool round sends one request at most, and calls the model once at
    most, with the conversation it ends with. *)
Lemma tool_round_effects (W : World) (tool_calls : option (list tool_call)) (s : state) :
  let s' := snd (tool_round W tool_calls s) in
  (network s' = network s \/ exists rq, network s' = (network s ++ [rq])%list)
  /\ (model_calls s' = model_calls s
      \/ model_calls s' = (model_calls s ++ [messages s'])%list).
Proof.
  cbv zeta. unfold tool_round.
  rewrite snd_bind. unfold messages_append at 1 2. simpl fst. simpl snd.
  rewrite snd_bind, parse_arguments_loop_state.
  destruct (fst (parse_arguments_loop W _ None _)) as [[[tc args] |] | e];
    try (split; left; reflexivity).
  rewrite snd_bind.
  set (s1 := mk_state (messages s ++ [AssistantMsg None tool_calls])
                      (network s) (model_calls s)).
  pose proof (call_function_network W (fn_name (tc_function tc)) args s1) as Hn.
  pose proof (call_function_state W (fn_name (tc_function tc)) args s1) as [_ Hc].
  change (network s1) with (network s) in Hn.
  change (model_calls s1) with (model_calls s) in Hc.
  destruct (fst (call_function W _ _ _)) as [fr | e];
    [| split; [exact Hn | left; exact Hc]].
  rewrite snd_bind.
  pose proof (append_result_state W tc fr
                (snd (call_function W (fn_name (tc_function tc)) args s1)))
    as (Hn2 & Hc2 & _).
  cbv zeta in Hn2, Hc2.
  destruct (fst (append_result W tc fr _)).
  - rewrite final_answer_state. cbn [messages network model_calls].
    split; [rewrite Hn2; exact Hn | right; rewrite Hc2, Hc; reflexivity].
  - split; [rewrite Hn2; exact Hn | left; rewrite Hc2; exact Hc].
Qed.

(** X15.  Whatever the world, and however the run ends (normally or with
    an exception): the opening conversation is kept and at most two
    messages follow it; at most one request goes to a backend; the
    completion service is called once, with the opening conversation, or
    twice, the second time with the conversation the run ends with. *)
Theorem script_run_bounds (W : World) :
  let s' := snd (script W initial_state) in
  (exists added, messages s' = (initial_messages ++ added)%list
                 /\ List.length added <= 2)
  /\ List.length (network s') <= 1
  /\ (model_calls s' = [initial_messages]
      \/ model_calls s' = [initial_messages; messages s']).
Proof.
  cbv zeta. unfold script. rewrite snd_bind. unfold create at 1 2. simpl fst. simpl snd.
  assert (Hstop : forall s0 : state,
             s0 = mk_state initial_messages [] [initial_messages] ->
             (exists added, messages s0 = (initial_messages ++ added)%list
                            /\ List.length added <= 2)
             /\ List.length (network s0) <= 1
             /\ (model_calls s0 = [initial_messages]
                 \/ model_calls s0 = [initial_messages; messages s0])).
  { intros s0 ->. cbn [messages network model_calls].
    split; [exists []; split; [now rewrite app_nil_r | apply Nat.le_0_l] |].
    split; [apply Nat.le_0_l | left; reflexivity]. }
  destruct (completions_create W "gpt-4o" initial_messages tools) as [first | e];
    [| now apply Hstop].
  rewrite snd_bind, first_message_state.
  destruct (fst (first_message first _)) as [message | e]; [| now apply Hstop].
  destruct (negb (truthy_list (cm_tool_calls message))); [now apply Hstop |].
  match goal with
  | |- context [tool_round W ?tcs ?s] =>
      pose proof (tool_round_messages W tcs s) as Hm;
      pose proof (tool_round_effects W tcs s) as [Hn Hc];
      cbv zeta in Hm, Hn, Hc; cbn [messages network model_calls] in Hm, Hn, Hc
  end.
  split; [| split].
  - destruct Hm as [Hm | (m & Hm & _)]; rewrite Hm; eexists; split;
      try reflexivity; simpl; lia.
  - destruct Hn as [Hn | (rq & Hn)]; rewrite Hn; simpl; lia.
  - destruct Hc as [Hc | Hc]; [left | right]; exact Hc.
Qed.

Lemma bind_ret_inv {A B} (m : M A) (f : A -> M B) (s s' : state) (b : B) :
  bind m f s = (Ret b, s') ->
  exists a s1, m s = (Ret a, s1) /\ f a s1 = (Ret b, s').
Proof.
  unfold bind. destruct (m s) as [[a | e] s1]; intros H; [| discriminate].
  exists a, s1. split; [reflexivity | exact H].
Qed.

Lemma str_or_not_empty (o : option string) (default : string) :
  default <> EmptyString -> str_or o default <> EmptyString.
Proof.
  intros Hd. unfold str_or, truthy_str.
  destruct o as [t |]; [| exact Hd]. simpl.
  destruct (String.eqb t EmptyString) eqn:Ht; simpl; [exact Hd |].
  intros ->. discriminate.
Qed.

(** A final answer that returns: the model answered the conversation as it
    stood, and the text is made from the content of that answer. *)
Lemma final_answer_ret (W : World) (s s' : state) (t : option string) :
  final_answer W s = (Ret t, s') ->
  exists second final others,
    completions_create W "gpt-4o" (messages s) tools = Ret second
    /\ choices second = final :: others
    /\ t = Some (str_or (cm_content final) "(no content)")
    /\ messages s' = messages s.
Proof.
  unfold final_answer. intros Hrun.
  apply bind_ret_inv in Hrun as (second & s1 & Hcreate & Hrun).
  apply bind_ret_inv in Hrun as (final & s2 & Hfirst & Hrun).
  unfold create in Hcreate. inversion Hcreate as [[Hsecond Hs1]].
  unfold first_message in Hfirst.
  destruct (choices second) as [| m others] eqn:Hchoices; [discriminate |].
  inversion Hfirst; subst m s2. inversion Hrun; subst.
  exists second, final, others. repeat split; assumption.
Qed.

(** X16.  When the model asked for tools and the run ends normally, the
    text it ends with is made from the first choice of the model's answer
    to the conversation the run ends with: the content of that answer when
    it is truthy, [(no content)] when it is [None] or empty.  The text is
    never empty. *)
Theorem script_final_text_not_empty (W : World) (first : chat_response)
    (message : chat_message) (rest : list chat_message) (t : option string)
    (s' : state) :
  completions_create W "gpt-4o" initial_messages tools = Ret first ->
  choices first = message :: rest ->
  truthy_list (cm_tool_calls message) = true ->
  script W initial_state = (Ret t, s') ->
  exists second final others,
    completions_create W "gpt-4o" (messages s') tools = Ret second
    /\ choices second = final :: others
    /\ (truthy_str (cm_content final) = true -> t = cm_content final)
    /\ (truthy_str (cm_content final) = false -> t = Some "(no content)")
    /\ t <> None /\ t <> Some EmptyString.
Proof.
  intros Hcreate Hchoices Hcalls Hrun.
  unfold script in Hrun. unfold bind at 1, create at 1 in Hrun.
  change (messages initial_state) with initial_messages in Hrun.
  rewrite Hcreate in Hrun. unfold bind at 1, first_message at 1 in Hrun.
  rewrite Hchoices in Hrun. unfold ret at 1 in Hrun. rewrite Hcalls in Hrun.
  cbn [negb] in Hrun. unfold tool_round in Hrun.
  apply bind_ret_inv in Hrun as (u & s1 & _ & Hrun).
  apply bind_ret_inv in Hrun as (vars & s2 & _ & Hrun).
  destruct vars as [[tc args] |]; [| discriminate].
  apply bind_ret_inv in Hrun as (fr & s3 & _ & Hrun).
  apply bind_ret_inv in Hrun as (u' & s4 & _ & Hrun).
  apply final_answer_ret in Hrun as (second & final & others & Hsecond & Hfinal & Ht & Hm).
  exists second, final, others. rewrite Hm.
  split; [exact Hsecond | split; [exact Hfinal |]].
  subst t. unfold str_or.
  destruct (truthy_str (cm_content final)) eqn:Htruthy.
  - split; [intros _ | split; [intros H; discriminate H |]].
    + destruct (cm_content final); [reflexivity | discriminate Htruthy].
    + split; [discriminate |]. intros H. inversion H as [Hempty].
      destruct (cm_content final) as [c |]; [| discriminate Htruthy].
      simpl in Hempty, Htruthy. subst c. discriminate Htruthy.
  - split; [intros H; discriminate H | split; [reflexivity |]].
    split; discriminate.
Qed.

Lemma script_final_text_not_empty_witness :
  exists second final others,
    completions_create Scenario.W_silent "gpt-4o"
      (messages (snd (script Scenario.W_silent initial_state))) tools = Ret second
    /\ choices second = final :: others
    /\ (truthy_str (cm_content final) = true -> Some "(no content)" = cm_content final)
    /\ (truthy_str (cm_content final) = false -> Some "(no content)" = Some "(no content)")
    /\ Some "(no content)" <> None /\ Some "(no content)" <> Some EmptyString.
Proof.
  apply (script_final_text_not_empty Scenario.W_silent Scenario.one_BCM_call
           (mk_chat_message None (Some [Demo.BCM_call "call_1" Demo.payload_sid])) []
           (Some "(no content)") (snd (script Scenario.W_silent initial_state)));
    reflexivity.
Defined.

(** X17.  Arguments of the last tool call that parse but do not bind (a
    key that is no parameter of [search_BCM_Request], or a value that is no
    dictionary) end the run with the [TypeError] of the call: nothing is
    sent, no result is appended and the model is not asked again. *)
Theorem script_unbound_arguments_raise (W : World) (first : chat_response)
    (message : chat_message) (rest : list chat_message)
    (tcs : list tool_call) (tc : tool_call) (args : json) (e : exn) :
  completions_create W "gpt-4o" initial_messages tools = Ret first ->
  choices first = message :: rest ->
  cm_tool_calls message = Some (tcs ++ [tc])%list ->
  Forall (fun c => exists a, json_loads W (fn_arguments (tc_function c)) = Ret a) tcs ->
  json_loads W (fn_arguments (tc_function tc)) = Ret args ->
  fn_name (tc_function tc) = "get_BCM_Request" ->
  bind_kwargs args = Raise e ->
  script W initial_state =
  (Raise e,
   mk_state (initial_messages ++ [AssistantMsg None (Some (tcs ++ [tc])%list)])
            [] [initial_messages])
  /\ isinstance e "TypeError" = true.
Proof.
  intros Hcreate Hchoices Hcalls Hall Hlast Hname Hkw. split.
  - rewrite (script_reaches_last_call W first message rest tcs tc args) by assumption.
    unfold bind at 1, call_function. rewrite Hname.
    change (String.eqb "get_BCM_Request" "get_BCM_Request") with true. cbv iota.
    unfold bind at 1, lift at 1. rewrite Hkw. reflexivity.
  - destruct args as [| b | n | str | items | d]; cbn [bind_kwargs] in Hkw;
      try (inversion Hkw; reflexivity).
    destruct (find _ d) as [[k v] |]; inversion Hkw; reflexivity.
Qed.

Lemma script_unbound_arguments_raise_witness :
  exists e,
    script Scenario.W_bad_key initial_state =
    (Raise e,
     mk_state (initial_messages
                 ++ [AssistantMsg None
                       (Some [mk_tool_call "call_1"
                                (mk_function_call "get_BCM_Request"
                                   (PyJson.dumps None true Scenario.args_with_filters))])])
              [] [initial_messages])
    /\ isinstance e "TypeError" = true.
Proof.
  eexists.
  apply (script_unbound_arguments_raise Scenario.W_bad_key
           (Demo.asks [mk_tool_call "call_1"
                         (mk_function_call "get_BCM_Request"
                            (PyJson.dumps None true Scenario.args_with_filters))])
           (mk_chat_message None
              (Some [mk_tool_call "call_1"
                       (mk_function_call "get_BCM_Request"
                          (PyJson.dumps None true Scenario.args_with_filters))]))
           [] []
           (mk_tool_call "call_1"
              (mk_function_call "get_BCM_Request"
                 (PyJson.dumps None true Scenario.args_with_filters)))
           Scenario.args_with_filters);
    try reflexivity.
  constructor.
Defined.
